(** * upgrade-cli: the download / verify / extract / replace pipeline

    A shallow embedding of the Go packages [upgrade] (upgrade.go),
    [asset] (release/asset/download.go) and [checksum], with the facts
    the specification states about them.

    Go strings are byte strings and are modelled as [string].  Calls into
    the operating system and into the Go library are functions on an
    explicit [World], which also records, in order, the calls made.
    Library functions whose full behaviour is outside this development
    (Unicode case mapping, archive decoders, version parsing, SHA-256)
    are fields of type classes: every general theorem holds for all
    their implementations, and the worked examples use small instances. *)

From Stdlib Require Import ZArith NArith Lia Ascii String List DecimalString.
From stdpp Require Import base strings gmap.

Local Open Scope string_scope.
Local Open Scope list_scope.

Abbreviation slen := String.length.

(** The bytes of a string, first to last. *)
Abbreviation chars := list_ascii_of_string.

(** * Part I: the program *)

(** ** Errors: [errors.New], [fmt.Errorf], [*fs.PathError], [*os.LinkError] *)

Inductive error : Type :=
| errors_New (text : string)
| Errorf (text : string)
| Errorf_w (before : string) (cause : error) (after : string)
| PathError (Op Path : string) (cause : error)
| LinkError (Op Old New : string) (cause : error).

#[global] Instance error_eq_dec : EqDecision error.
Proof. solve_decision. Defined.

(** The method [Error()]. *)
Fixpoint Error (e : error) : string :=
  match e with
  | errors_New t => t
  | Errorf t => t
  | Errorf_w b c a => b +:+ Error c +:+ a
  | PathError op p c => op +:+ " " +:+ p +:+ ": " +:+ Error c
  | LinkError op o n c => op +:+ " " +:+ o +:+ " " +:+ n +:+ ": " +:+ Error c
  end.

Definition Unwrap (e : error) : option error :=
  match e with
  | Errorf_w _ c _ | PathError _ _ c | LinkError _ _ _ c => Some c
  | errors_New _ | Errorf _ => None
  end.

(** [errors.Is]: some error of the [Unwrap] chain is the target.  The
    sentinels of this program have distinct texts, so that identity of
    sentinels is equality of terms. *)
Fixpoint errors_Is (e target : error) : bool :=
  bool_decide (e = target) ||
  match e with
  | Errorf_w _ c _ | PathError _ _ c | LinkError _ _ _ c => errors_Is c target
  | errors_New _ | Errorf _ => false
  end.

Inductive result (A : Type) : Type :=
| Ok (a : A)
| Err (e : error).
Arguments Ok {A} a.
Arguments Err {A} e.

Definition is_Ok {A} (r : result A) : bool :=
  match r with Ok _ => true | Err _ => false end.

(** ** Package [strings]: the byte-exact functions *)

Module strings.

(** [len(s) >= len(prefix) && s[:len(prefix)] == prefix] *)
Definition HasPrefix (s prefix : string) : bool :=
  (slen prefix <=? slen s)%nat && String.eqb (substring 0 (slen prefix) s) prefix.

(** [len(s) >= len(suffix) && s[len(s)-len(suffix):] == suffix] *)
Definition HasSuffix (s suffix : string) : bool :=
  (slen suffix <=? slen s)%nat
  && String.eqb (substring (slen s - slen suffix) (slen suffix) s) suffix.

(** [if HasSuffix(s, suffix) { return s[:len(s)-len(suffix)] }; return s] *)
Definition TrimSuffix (s suffix : string) : string :=
  if HasSuffix s suffix then substring 0 (slen s - slen suffix) s else s.

End strings.

(** The functions of [strings] that depend on Unicode tables. *)
Class StringsLib : Type := {
  strings_ToLower : string -> string;
  strings_TrimSpace : string -> string;
  strings_Fields : string -> list string;
}.

(** [bufio.Scanner] with the default split function: the successive values
    of [scanner.Text()] until [scanner.Scan()] returns false, which it does
    at the end of the input, at a read error, and at a line longer than
    the scanner's buffer.  [downloadCheckSum] does not call
    [scanner.Err()]. *)
Class BufioLib : Type := {
  bufio_ScanLines : string -> list string;
}.

(** [hex.EncodeToString(sha256.Sum(data))] *)
Class CryptoLib : Type := {
  sha256_hex : string -> string;
}.

(** [runtime.GOOS] and [runtime.GOARCH] *)
Class RuntimeLib : Type := {
  GOOS : string;
  GOARCH : string;
}.

(** ** Package [path/filepath] (Unix: the separator is the slash) *)

Module filepath.

Definition IsPathSeparator (c : ascii) : bool := Ascii.eqb c "/".

(** The loop of [Ext], [for i := len(path)-1; i >= 0 &&
    !os.IsPathSeparator(path[i]); i--], walks the bytes last to first;
    [tail] is [path[i+1:]]. *)
Fixpoint Ext_scan (rpath : list ascii) (tail : string) : string :=
  match rpath with
  | [] => ""
  | c :: r =>
      if IsPathSeparator c then ""
      else if Ascii.eqb c "." then String c tail
      else Ext_scan r (String c tail)
  end.

Definition Ext (path : string) : string := Ext_scan (rev (chars path)) "".

(** [Base]: strip trailing slashes, then keep what follows the last slash. *)
Fixpoint strip_trailing (rpath : list ascii) : list ascii :=
  match rpath with
  | [] => []
  | c :: r => if IsPathSeparator c then strip_trailing r else rpath
  end.

Fixpoint last_element (rpath : list ascii) (tail : string) : string :=
  match rpath with
  | [] => tail
  | c :: r => if IsPathSeparator c then tail else last_element r (String c tail)
  end.

Definition Base (path : string) : string :=
  if String.eqb path "" then "."
  else
    let path := last_element (strip_trailing (rev (chars path))) "" in
    if String.eqb path "" then "/" else path.

End filepath.

(** ** The world: files, network, randomness, and the calls made *)

(** An [io.Reader]: the bytes it delivers, and how it ends ([None] for
    [io.EOF]). *)
Record Reader : Type := { rd_bytes : string; rd_err : option error }.

Record FileData : Type := { f_bytes : string; f_mode : N }.

(** An open [*os.File] is named by its path. *)
Record File : Type := { Name : string }.

Inductive Syscall : Type :=
| SysOpen (name : string)
| SysCreate (name : string)
| SysWrite (name : string)
| SysChmod (name : string)
| SysRename (oldpath newpath : string)
| SysRemove (name : string).

Inductive Event : Type :=
| EvHttpGet (url : string)
| EvOpen (name : string)
| EvCreateTemp (dir pattern : string)
| EvCopy (dst : string)
| EvChmod (name : string) (mode : N)
| EvRename (oldpath newpath : string)
| EvRemove (name : string)
| EvGzipNewReader
| EvTarNewReader
| EvTarNext
| EvZipNewReader.

Record World : Type := {
  files : gmap string FileData;
  TempDir : string;                      (* os.TempDir() *)
  random : nat -> N;                     (* the draws of runtime_rand *)
  drawn : nat;                           (* how many were consumed *)
  refuse : Syscall -> option error;      (* calls the system refuses *)
  network : string -> result Reader;     (* the answer to GET url *)
  calls : list Event;                    (* calls made so far, oldest first *)
}.

Definition set_files (f : gmap string FileData -> gmap string FileData) (w : World) : World :=
  {| files := f (files w); TempDir := TempDir w; random := random w;
     drawn := drawn w; refuse := refuse w; network := network w;
     calls := calls w |}.

Definition set_drawn (n : nat) (w : World) : World :=
  {| files := files w; TempDir := TempDir w; random := random w;
     drawn := n; refuse := refuse w; network := network w;
     calls := calls w |}.

Definition log (e : Event) (w : World) : World :=
  {| files := files w; TempDir := TempDir w; random := random w;
     drawn := drawn w; refuse := refuse w; network := network w;
     calls := calls w ++ [e] |}.

(** Computations that read and change the world. *)
Definition M (A : Type) : Type := World -> A * World.

#[global] Instance M_ret : MRet M := fun A (a : A) (w : World) => (a, w).

#[global] Instance M_bind : MBind M :=
  fun A B (f : A -> M B) (m : M A) (w : World) => let (a, w1) := m w in f a w1.

Definition emit (e : Event) : M unit := fun w => (tt, log e w).

Definition ErrExist : error := errors_New "file already exists".
Definition ErrNotExist : error := errors_New "file does not exist".
Definition errPatternHasSeparator : error := errors_New "pattern contains path separator".

(** ** Package [os] and [io] *)

(** The permission bits [0600] and [0755], written in decimal. *)
Definition mode_0600 : N := 384.
Definition mode_0755 : N := 493.

(** [os.Open] *)
Definition os_Open (name : string) : M (result Reader) := fun w =>
  let w := log (EvOpen name) w in
  match refuse w (SysOpen name) with
  | Some e => (Err (PathError "open" name e), w)
  | None =>
      match files w !! name with
      | None => (Err (PathError "open" name ErrNotExist), w)
      | Some fd => (Ok {| rd_bytes := f_bytes fd; rd_err := None |}, w)
      end
  end.

(** [os.OpenFile(name, O_RDWR|O_CREATE|O_EXCL, 0600)] *)
Definition os_OpenFile_excl (name : string) : M (result File) := fun w =>
  match files w !! name with
  | Some _ => (Err (PathError "open" name ErrExist), w)
  | None =>
      match refuse w (SysCreate name) with
      | Some e => (Err (PathError "open" name e), w)
      | None =>
          (Ok {| Name := name |},
           set_files (insert name {| f_bytes := ""; f_mode := mode_0600 |}) w)
      end
  end.

(** [os.IsExist] *)
Definition IsExist (e : error) : bool :=
  match e with
  | PathError _ _ c | LinkError _ _ _ c => bool_decide (c = ErrExist)
  | _ => bool_decide (e = ErrExist)
  end.

(** [nextRandom]: a 32-bit draw in decimal. *)
Definition nextRandom : M string := fun w =>
  (NilEmpty.string_of_uint (N.to_uint (random w (drawn w) mod 2 ^ 32)%N),
   set_drawn (S (drawn w)) w).

Definition contains_separator (pattern : string) : bool :=
  existsb filepath.IsPathSeparator (chars pattern).

(** Position of the last star of the pattern, if any. *)
Fixpoint LastIndexStar (s : string) : option nat :=
  match s with
  | "" => None
  | String c r =>
      match LastIndexStar r with
      | Some i => Some (S i)
      | None => if Ascii.eqb c "*" then Some 0 else None
      end
  end.

Definition prefixAndSuffix (pattern : string) : result (string * string) :=
  if contains_separator pattern then Err errPatternHasSeparator
  else
    match LastIndexStar pattern with
    | Some pos =>
        Ok (substring 0 pos pattern,
            substring (S pos) (slen pattern - S pos) pattern)
    | None => Ok (pattern, "")
    end.

Definition joinPath (dir name : string) : string :=
  match rev (chars dir) with
  | c :: _ => if filepath.IsPathSeparator c then dir +:+ name else dir +:+ "/" +:+ name
  | [] => dir +:+ "/" +:+ name
  end.

(** The retry loop of [os.CreateTemp]; [tries] attempts are left. *)
Fixpoint CreateTemp_loop (tries : nat) (prefix suffix : string) : M (result File) :=
  match tries with
  | 0 => mret (Err (PathError "createtemp" (prefix +:+ "*" +:+ suffix) ErrExist))
  | S tries =>
      r ← nextRandom;
      f ← os_OpenFile_excl (prefix +:+ r +:+ suffix);
      match f with
      | Err e => if IsExist e then CreateTemp_loop tries prefix suffix else mret (Err e)
      | Ok f => mret (Ok f)
      end
  end.

(** [os.CreateTemp] *)
Definition os_CreateTemp (dir pattern : string) : M (result File) :=
  _ ← emit (EvCreateTemp dir pattern);
  d ← (fun w => (if String.eqb dir "" then TempDir w else dir, w));
  match prefixAndSuffix pattern with
  | Err e => mret (Err (PathError "createtemp" pattern e))
  | Ok (prefix, suffix) => CreateTemp_loop 10000 (joinPath d prefix) suffix
  end.

(** [io.Copy] into a file: the bytes of the source are appended; the
    result is the error the source ended with, if any. *)
Definition io_Copy (dst : File) (src : Reader) : M (option error) := fun w =>
  let w := log (EvCopy (Name dst)) w in
  match refuse w (SysWrite (Name dst)) with
  | Some e => (Some (PathError "write" (Name dst) e), w)
  | None =>
      (rd_err src,
       set_files (alter (fun fd => {| f_bytes := f_bytes fd +:+ rd_bytes src;
                                      f_mode := f_mode fd |}) (Name dst)) w)
  end.

(** [os.Chmod] *)
Definition os_Chmod (name : string) (mode : N) : M (option error) := fun w =>
  let w := log (EvChmod name mode) w in
  match refuse w (SysChmod name) with
  | Some e => (Some (PathError "chmod" name e), w)
  | None =>
      match files w !! name with
      | None => (Some (PathError "chmod" name ErrNotExist), w)
      | Some fd =>
          (None, set_files (insert name {| f_bytes := f_bytes fd; f_mode := mode |}) w)
      end
  end.

(** [os.Rename]: one system call; either the file moves, or the call
    fails and no file changes. *)
Definition os_Rename (oldpath newpath : string) : M (option error) := fun w =>
  let w := log (EvRename oldpath newpath) w in
  match refuse w (SysRename oldpath newpath) with
  | Some e => (Some (LinkError "rename" oldpath newpath e), w)
  | None =>
      match files w !! oldpath with
      | None => (Some (LinkError "rename" oldpath newpath ErrNotExist), w)
      | Some fd => (None, set_files (fun m => <[newpath := fd]> (delete oldpath m)) w)
      end
  end.

(** [os.Remove] *)
Definition os_Remove (name : string) : M (option error) := fun w =>
  let w := log (EvRemove name) w in
  match refuse w (SysRemove name) with
  | Some e => (Some (PathError "remove" name e), w)
  | None =>
      match files w !! name with
      | None => (Some (PathError "remove" name ErrNotExist), w)
      | Some _ => (None, set_files (delete name) w)
      end
  end.

(** [http.NewRequestWithContext] followed by [http.DefaultClient.Do]. *)
Definition http_Get (url : string) : M (result Reader) := fun w =>
  (network w url, log (EvHttpGet url) w).

(** ** Package [release]: what the core reads of a release *)

Record Asset : Type := { BrowserDownloadURL : string }.

Record ReleaseInfo : Type := { TagName : string; Assets : list Asset }.

(** [release.NewReleaseGetter(repo, owner)], whose source is the GitHub
    client. *)
Class ReleaseLib : Type := {
  release_NewReleaseGetter : string -> string -> M (result ReleaseInfo);
}.

(** The archive suffixes both packages strip, in the order of the slice
    literal [[]string{".tar.gz", ".tar", ".zip", ".gz"}]. *)
Definition archiveSuffixes : list string := [".tar.gz"; ".tar"; ".zip"; ".gz"].

(** ** Package [asset] (release/asset/download.go) *)

Module asset.

Definition cleanupFn : Type := M (option error).

Record Info : Type := {
  Checksum : string;
  DownloadedBinaryFilePath : string;
  PlatformSuffix : string;
  ArSuffix : string;
}.

Record downloader : Type := {
  os : string;
  arch : string;
  executablePath : string;
}.

(** The interface [Downloader]. *)
Definition Downloader : Type := list Asset -> M (result (Info * option cleanupFn)).

Definition ErrNoAsset : error := errors_New "no asset found".

Section with_library.
Context `{StringsLib} `{CryptoLib} `{RuntimeLib}.

Definition downloadAsset (d : downloader) (url : string) : M (result (Info * cleanupFn)) :=
  let executable := filepath.Base (executablePath d) in
  resp ← http_Get url;
  match resp with
  | Err e => mret (Err e)
  | Ok body =>
      tmp ← os_CreateTemp "" executable;
      match tmp with
      | Err e => mret (Err e)
      | Ok tmpFile =>
          let cleanupFn : cleanupFn := os_Remove (Name tmpFile) in
          c ← io_Copy tmpFile body;
          match c with
          | Some e => _ ← cleanupFn; mret (Err e)
          | None =>
              m ← os_Chmod (Name tmpFile) mode_0755;
              match m with
              | Some e => _ ← cleanupFn; mret (Err e)
              | None =>
                  mret (Ok ({| Checksum := sha256_hex (rd_bytes body);
                               DownloadedBinaryFilePath := Name tmpFile;
                               PlatformSuffix := "";
                               ArSuffix := "" |}, cleanupFn))
              end
          end
      end
  end.

(** The inner loop of [DownloadAsset]: the first suffix [s] with
    [TrimSuffix(u, s) != u] is recorded in [ar] and stripped, and the loop
    breaks.  The result is the pair of [ar] and [u] after the loop. *)
Fixpoint stripArchive (u : string) (suffixes : list string) : string * string :=
  match suffixes with
  | [] => ("", u)
  | s :: rest =>
      let t := strings.TrimSuffix u s in
      if negb (String.eqb t u) then (s, t) else stripArchive u rest
  end.

(** The outer loop of [DownloadAsset] over the assets. *)
Fixpoint DownloadAsset_loop (d : downloader) (suffix : string) (assets : list Asset)
  : M (result (Info * option cleanupFn)) :=
  match assets with
  | [] =>
      mret (Err (Errorf_w "" ErrNoAsset (": os:" +:+ os d +:+ " arch:" +:+ arch d)))
  | a :: rest =>
      let u := strings_ToLower (BrowserDownloadURL a) in
      let '(ar, u) := stripArchive u archiveSuffixes in
      if strings.HasSuffix u suffix then
        r ← downloadAsset d (BrowserDownloadURL a);
        match r with
        | Err e => mret (Err e)
        | Ok (info, c) =>
            mret (Ok ({| Checksum := Checksum info;
                         DownloadedBinaryFilePath := DownloadedBinaryFilePath info;
                         PlatformSuffix := suffix;
                         ArSuffix := ar |}, Some c))
        end
      else DownloadAsset_loop d suffix rest
  end.

Definition DownloadAsset (d : downloader) : Downloader := fun assets =>
  let suffix := os d +:+ "_" +:+ arch d in
  DownloadAsset_loop d suffix assets.

(** Options are functions on the downloader, applied in order. *)
Definition WithOS (os' : string) (d : downloader) : downloader :=
  {| os := os'; arch := arch d; executablePath := executablePath d |}.

Definition WithArch (arch' : string) (d : downloader) : downloader :=
  {| os := os d; arch := arch'; executablePath := executablePath d |}.

Definition NewAssetDownloader (executablePath : string)
  (opts : list (downloader -> downloader)) : Downloader :=
  DownloadAsset
    (fold_left (fun d opt => opt d) opts
       {| os := GOOS; arch := GOARCH; executablePath := executablePath |}).

End with_library.

End asset.

(** ** Package [checksum] *)

Module checksum.

Record Info : Type := { Checksums : gmap string string }.

Record checksumDownloader : Type := { assetSuffix : string }.

Record validator : Type := { os : string; arch : string }.

(** The interfaces [Downloader] and [CheckSumValidator]. *)
Definition Downloader : Type := list Asset -> M (result Info).
Definition CheckSumValidator : Type := string -> Info -> string -> M bool.

Definition ErrNoCheckSumAsset : error := errors_New "no checksum asset found".
Definition ErrInvalidChecksumFile : error := errors_New "invalid checksum file".

Section with_library.
Context `{StringsLib} `{BufioLib} `{RuntimeLib}.

(** [k := strings.ToLower(parts[1]); for _, s := range suffixes
    { k = strings.TrimSuffix(k, s) }] *)
Definition manifestKey (filename : string) : string :=
  fold_left strings.TrimSuffix archiveSuffixes (strings_ToLower filename).

(** The loop [for scanner.Scan()] of [downloadCheckSum] over the lines
    still to come; [checksums] is the map built so far. *)
Fixpoint scanLines (checksums : gmap string string) (lines : list string)
  : result (gmap string string) :=
  match lines with
  | [] => Ok checksums
  | line :: rest =>
      let line := strings_TrimSpace line in
      let parts := strings_Fields line in
      match parts with
      | [p0; p1] => scanLines (<[manifestKey p1 := strings_ToLower p0]> checksums) rest
      | _ => Err (Errorf_w "" ErrInvalidChecksumFile ": checksum file is malformed")
      end
  end.

(** What [downloadCheckSum] does with the response body. *)
Definition parseManifest (body : string) : result Info :=
  match scanLines ∅ (bufio_ScanLines body) with
  | Err e => Err e
  | Ok checksums =>
      if Nat.eqb (size checksums) 0
      then Err (Errorf_w "" ErrInvalidChecksumFile ": checksum file is empty")
      else Ok {| Checksums := checksums |}
  end.

Definition downloadCheckSum (url : string) : M (result Info) :=
  resp ← http_Get url;
  match resp with
  | Err e => mret (Err e)
  | Ok body => mret (parseManifest (rd_bytes body))
  end.

Fixpoint Download (c : checksumDownloader) (assets : list Asset) : M (result Info) :=
  match assets with
  | [] => mret (Err ErrNoCheckSumAsset)
  | a :: rest =>
      if strings.HasSuffix (BrowserDownloadURL a) (assetSuffix c)
      then downloadCheckSum (BrowserDownloadURL a)
      else Download c rest
  end.

Definition NewCheckSumDownloader (opts : list (checksumDownloader -> checksumDownloader))
  : Downloader :=
  Download (fold_left (fun d opt => opt d) opts {| assetSuffix := "checksums.txt" |}).

(** [key := fmt.Sprintf("%s_%s_%s", binary, v.os, v.arch)] *)
Definition IsCheckSumValid (v : validator) (binary : string) (info : Info)
  (downloadedChecksum : string) : bool :=
  let key := binary +:+ "_" +:+ os v +:+ "_" +:+ arch v in
  match Checksums info !! key with
  | None => false
  | Some expectedChecksum => String.eqb expectedChecksum downloadedChecksum
  end.

Definition NewCheckSumValidator (opts : list (validator -> validator)) : CheckSumValidator :=
  fun binary info downloadedChecksum =>
    mret (IsCheckSumValid
            (fold_left (fun v opt => opt v) opts {| os := GOOS; arch := GOARCH |})
            binary info downloadedChecksum).

End with_library.

End checksum.

(** ** The archive readers and the version library *)

Record TarHeader : Type := { Typeflag : ascii; hdr_Name : string }.

(** One call of [tar.Reader.Next]: a header and the entry's bytes, or an
    error other than [io.EOF].  The end of the list is [io.EOF]. *)
Inductive TarStep : Type :=
| TarEntry (hdr : TarHeader) (body : Reader)
| TarError (e : error).

(** A [*zip.File]: its name and what [f.Open()] gives. *)
Record ZipFile : Type := { zip_Name : string; zip_Open : result Reader }.

Class ArchiveLib : Type := {
  gzip_NewReader : Reader -> result Reader;
  tar_Next : Reader -> list TarStep;
  zip_NewReader : Reader -> Z -> result (list ZipFile);
}.

(** [github.com/hashicorp/go-version]: [NewVersion] and [Compare];
    [GreaterThan] and [LessThanOrEqual] are defined from [Compare] there. *)
Class VersionLib : Type := {
  Version : Type;
  NewVersion : string -> result Version;
  Compare : Version -> Version -> Z;
}.

Definition GreaterThan `{VersionLib} (v o : Version) : bool := (0 <? Compare v o)%Z.
Definition LessThanOrEqual `{VersionLib} (v o : Version) : bool := (Compare v o <=? 0)%Z.

(** ** Package [upgrade] (upgrade.go) *)

Module upgrade.

Record upgrader : Type := {
  executablePath : string;
  repo : string;
  owner : string;
  releaseGetter : M (result ReleaseInfo);
  assetDownloader : asset.Downloader;
  checksumDownloader : checksum.Downloader;
  checksumValidator : checksum.CheckSumValidator;
}.

Definition ErrInvalidCheckSum : error := errors_New "invalid checksum".

(** [tar.TypeReg] *)
Definition TypeReg : ascii := "0"%char.

Section with_library.
Context `{StringsLib} `{BufioLib} `{CryptoLib} `{RuntimeLib} `{ReleaseLib}
        `{ArchiveLib} `{VersionLib}.


Definition WithCheckSumDownloader (c : checksum.Downloader) (u : upgrader) : upgrader :=
  {| executablePath := executablePath u; repo := repo u; owner := owner u;
     releaseGetter := releaseGetter u; assetDownloader := assetDownloader u;
     checksumDownloader := c;
     checksumValidator := checksumValidator u |}.

Definition WithCheckSumValidator (c : checksum.CheckSumValidator) (u : upgrader) : upgrader :=
  {| executablePath := executablePath u; repo := repo u; owner := owner u;
     releaseGetter := releaseGetter u; assetDownloader := assetDownloader u;
     checksumDownloader := checksumDownloader u;
     checksumValidator := c |}.

Definition NewUpgrader (owner repo executablePath : string)
  (opts : list (upgrader -> upgrader)) : upgrader :=
  fold_left (fun u opt => opt u) opts
    {| executablePath := executablePath; repo := repo; owner := owner;
       releaseGetter := release_NewReleaseGetter repo owner;
       assetDownloader := asset.NewAssetDownloader executablePath [];
       checksumDownloader := checksum.NewCheckSumDownloader [];
       checksumValidator := checksum.NewCheckSumValidator [] |}.

(** The pattern every extraction helper passes to [os.CreateTemp]. *)
Definition tempPattern (prefix : string) : string := "/tmp/" +:+ prefix +:+ "-*".

(** After a matching entry was found: copy, chmod, return the name. *)
Definition copyOut (out : File) (src : Reader) : M (result string) :=
  c ← io_Copy out src;
  match c with
  | Some e => mret (Err (Errorf_w "failed to copy file: " e ""))
  | None =>
      m ← os_Chmod (Name out) mode_0755;
      match m with
      | Some e => mret (Err (Errorf_w "failed to change file permissions: " e ""))
      | None => mret (Ok (Name out))
      end
  end.

(** The [for] loop of [unTar] over the calls of [tarr.Next()] to come. *)
Fixpoint unTar_loop (prefix : string) (out : File) (steps : list TarStep)
  : M (result string) :=
  _ ← emit EvTarNext;
  match steps with
  | [] => mret (Err (Errorf "file not found in archive"))
  | TarError e :: _ => mret (Err (Errorf_w "failed to read next header: " e ""))
  | TarEntry hdr body :: rest =>
      if negb (Ascii.eqb (Typeflag hdr) TypeReg) then unTar_loop prefix out rest
      else if negb (strings.HasPrefix (filepath.Base (hdr_Name hdr)) prefix)
      then unTar_loop prefix out rest
      else copyOut out body
  end.

Definition unTar (prefix : string) (r : Reader) : M (result string) :=
  _ ← emit EvTarNewReader;
  out ← os_CreateTemp "" (tempPattern prefix);
  match out with
  | Err e => mret (Err (Errorf_w "failed to create temp file: " e ""))
  | Ok out => unTar_loop prefix out (tar_Next r)
  end.

Definition unTarGz (prefix : string) (r : Reader) : M (result string) :=
  _ ← emit EvGzipNewReader;
  match gzip_NewReader r with
  | Err e => mret (Err (Errorf_w "failed to create gzip reader: " e ""))
  | Ok gzr => unTar prefix gzr
  end.

(** The [for] loop of [unZip] over [zr.File]. *)
Fixpoint unZip_loop (prefix : string) (zfiles : list ZipFile) : M (result string) :=
  match zfiles with
  | [] => mret (Err (Errorf ("no file found with prefix: " +:+ prefix)))
  | f :: rest =>
      if negb (strings.HasPrefix (filepath.Base (zip_Name f)) prefix)
      then unZip_loop prefix rest
      else
        match zip_Open f with
        | Err e => mret (Err (Errorf_w "failed to open file: " e ""))
        | Ok rc =>
            out ← os_CreateTemp "" (tempPattern prefix);
            match out with
            | Err e => mret (Err (Errorf_w "failed to create temp file: " e ""))
            | Ok out => copyOut out rc
            end
        end
  end.

Definition unZip (prefix : string) (r : Reader) : M (result string) :=
  _ ← emit EvZipNewReader;
  match zip_NewReader r 0 with
  | Err e => mret (Err (Errorf_w "failed to create zip reader: " e ""))
  | Ok zfiles => unZip_loop prefix zfiles
  end.

Definition unGz (prefix : string) (r : Reader) : M (result string) :=
  _ ← emit EvGzipNewReader;
  match gzip_NewReader r with
  | Err e => mret (Err (Errorf_w "failed to create gzip reader: " e ""))
  | Ok gzr =>
      out ← os_CreateTemp "" (tempPattern prefix);
      match out with
      | Err e => mret (Err (Errorf_w "failed to create temp file: " e ""))
      | Ok out => copyOut out gzr
      end
  end.

(** [tryUnArchive]: the [switch] on [filepath.Ext(arPath)], case by case
    in the order of the source. *)
Definition tryUnArchive (prefix arPath : string) : M (result string) :=
  f ← os_Open arPath;
  match f with
  | Err e => mret (Err (Errorf_w "failed to open file: " e ""))
  | Ok f =>
      let ext := filepath.Ext arPath in
      if String.eqb ext ".tar.gz" then unTarGz prefix f
      else if String.eqb ext ".zip" then unZip prefix f
      else if String.eqb ext ".tar" then unTar prefix f
      else if String.eqb ext ".gz" then unGz prefix f
      else if String.eqb ext "" then mret (Ok arPath)
      else mret (Err (Errorf ("unsupported file type: " +:+ filepath.Ext arPath)))
  end.

Definition replaceBinary (tmpFilePath currentBinaryPath : string) : M (option error) :=
  r ← os_Rename tmpFilePath currentBinaryPath;
  match r with
  | Some e => mret (Some (Errorf_w "failed to replace binary: " e ""))
  | None => mret None
  end.

Definition IsNewVersionAvailable (u : upgrader) (currentVersion : string)
  : M (result bool) :=
  match NewVersion currentVersion with
  | Err e =>
      mret (Err (Errorf_w ("failed to parse current version: " +:+ currentVersion
                           +:+ " with err ") e ""))
  | Ok curr =>
      r ← releaseGetter u;
      match r with
      | Err e => mret (Err e)
      | Ok releaseInfo =>
          match NewVersion (TagName releaseInfo) with
          | Err e =>
              mret (Err (Errorf_w ("failed to parse latest version: "
                                   +:+ TagName releaseInfo +:+ " with err ") e ""))
          | Ok latest => mret (Ok (GreaterThan latest curr))
          end
      end
  end.

(** [Upgrade] from the checksum download on (lines 127 to 149); the
    deferred [os.Remove(tempFile)] runs when this part returns. *)
Definition install (u : upgrader) (releaseInfo : ReleaseInfo)
  (downloadInfo : asset.Info) : M (option error) :=
  c ← checksumDownloader u (Assets releaseInfo);
  match c with
  | Err e => mret (Some e)
  | Ok checksumInfo =>
      let executableName := filepath.Base (executablePath u) in
      valid ← checksumValidator u executableName checksumInfo
                (asset.Checksum downloadInfo);
      if negb valid then mret (Some ErrInvalidCheckSum)
      else
        t ← tryUnArchive executableName (asset.DownloadedBinaryFilePath downloadInfo);
        match t with
        | Err e => mret (Some (Errorf_w "failed to unarchive: " e ""))
        | Ok tempFile =>
            r ← replaceBinary tempFile (executablePath u);
            _ ← os_Remove tempFile;
            match r with
            | Some e => mret (Some (Errorf_w "failed to replace binary: " e ""))
            | None => mret None
            end
        end
  end.

(** [Upgrade]; the deferred [cleanup()] runs last. *)
Definition Upgrade (u : upgrader) (currentVersion : string) : M (option error) :=
  match NewVersion currentVersion with
  | Err e => mret (Some e)
  | Ok curr =>
      r ← releaseGetter u;
      match r with
      | Err e => mret (Some e)
      | Ok releaseInfo =>
          match NewVersion (TagName releaseInfo) with
          | Err e => mret (Some e)
          | Ok latest =>
              if LessThanOrEqual latest curr then mret None
              else
                d ← assetDownloader u (Assets releaseInfo);
                match d with
                | Err e => mret (Some e)
                | Ok (downloadInfo, cleanup) =>
                    ret ← install u releaseInfo downloadInfo;
                    _ ← match cleanup with
                        | Some cleanup => cleanup
                        | None => mret None
                        end;
                    mret ret
                end
          end
      end
  end.

End with_library.

End upgrade.

(** ** Predicates and functions the statements of Part II are written with *)

(** No byte of the string is a dot. *)
Definition NoDot (s : string) : Prop := forall c, In c (chars s) -> c <> "."%char.



(** The normalisation as the specification words it: strip the first of
    [.tar.gz], [.tar], [.zip], [.gz], tried in that order, that the
    string ends with; the result is the suffix found (empty when there is
    none) and what is left. *)
Definition stripKnownArchiveSuffix (u : string) : string * string :=
  match find (strings.HasSuffix u) archiveSuffixes with
  | Some s => (s, substring 0 (slen u - slen s) u)
  | None => ("", u)
  end.

(** The asset matches the platform: its lower-cased URL, with the archive
    suffix stripped, ends with [target]. *)
Definition assetMatches `{StringsLib} (target : string) (a : Asset) : bool :=
  strings.HasSuffix
    (stripKnownArchiveSuffix (strings_ToLower (BrowserDownloadURL a))).2 target.



(** The sentinel an error was made from: the end of its [Unwrap] chain. *)
Fixpoint sentinel (e : error) : error :=
  match e with
  | Errorf_w _ c _ | PathError _ _ c | LinkError _ _ _ c => sentinel c
  | errors_New _ | Errorf _ => e
  end.

(** The manifest as the specification words it.  A line is trimmed and
    split into fields; it is well formed when there are exactly two, the
    checksum and the file name. *)
Definition lineFields `{StringsLib} (line : string) : list string :=
  strings_Fields (strings_TrimSpace line).

Definition twoFields `{StringsLib} (line : string) : bool :=
  Nat.eqb (length (lineFields line)) 2.

Definition lineEntry `{StringsLib} (line : string) : string * string :=
  match lineFields line with
  | [sum; filename] => (checksum.manifestKey filename, strings_ToLower sum)
  | _ => ("", "")
  end.

Definition errMalformed : error :=
  Errorf_w "" checksum.ErrInvalidChecksumFile ": checksum file is malformed".

Definition errEmpty : error :=
  Errorf_w "" checksum.ErrInvalidChecksumFile ": checksum file is empty".

(** One bad line fails the whole manifest; no line at all fails it too;
    otherwise every line gives one entry, a later line replacing an
    earlier one with the same key. *)
Definition manifestOf `{StringsLib} (lines : list string) : result checksum.Info :=
  if negb (forallb twoFields lines) then Err errMalformed
  else
    match lines with
    | [] => Err errEmpty
    | _ => Ok {| checksum.Checksums := list_to_map (rev (map lineEntry lines)) |}
    end.





(** The two worlds differ at most in their files, their log and the
    number of random draws: the temporary directory, what the system
    refuses and what the network answers are the same. *)
Definition same_system (w w' : World) : Prop :=
  TempDir w' = TempDir w /\ refuse w' = refuse w /\ network w' = network w.

(** The asset is the checksum manifest: its URL, as it is written, ends
    with the suffix of the downloader. *)
Definition isManifestAsset (c : checksum.checksumDownloader) (a : Asset) : bool :=
  strings.HasSuffix (BrowserDownloadURL a) (checksum.assetSuffix c).

(** No line of [lines] has the manifest key [key]. *)
Definition keyNotIn `{StringsLib} (key : string) (lines : list string) : bool :=
  forallb (fun l => negb (String.eqb (lineEntry l).1 key)) lines.

(** The key [IsCheckSumValid] looks up. *)
Definition validatorKey (v : checksum.validator) (binary : string) : string :=
  binary +:+ "_" +:+ checksum.os v +:+ "_" +:+ checksum.arch v.

(** ** Small instances of the library classes, for the worked examples *)

(** ASCII case mapping and white space: what the Go functions do on
    strings of ASCII bytes. *)
Definition lowerByte (c : ascii) : ascii :=
  let n := nat_of_ascii c in
  if (65 <=? n)%nat && (n <=? 90)%nat then ascii_of_nat (n + 32) else c.

Fixpoint ascii_ToLower (s : string) : string :=
  match s with
  | "" => ""
  | String c r => String (lowerByte c) (ascii_ToLower r)
  end.

Fixpoint dropSpaces (s : string) : string :=
  match s with
  | "" => ""
  | String c r => if Ascii.is_space c then dropSpaces r else s
  end.

Definition ascii_TrimSpace (s : string) : string :=
  String.rev (dropSpaces (String.rev (dropSpaces s))).

Definition ascii_strings : StringsLib :=
  {| strings_ToLower := ascii_ToLower;
     strings_TrimSpace := ascii_TrimSpace;
     strings_Fields := String.words |}.

(** Lines of a short text: split at the newline, one trailing carriage
    return dropped, a last line without newline kept. *)
Definition newline : string := String "010"%char "".

Definition dropCR (line : string) : string :=
  match String.rev line with
  | String "013"%char r => String.rev r
  | _ => line
  end.

Fixpoint splitLines (cur rest : string) : list string :=
  match rest with
  | "" => if String.eqb cur "" then [] else [dropCR cur]
  | String c r =>
      if Ascii.eqb c "010" then dropCR cur :: splitLines "" r
      else splitLines (cur +:+ String c "") r
  end.

Definition short_lines : BufioLib := {| bufio_ScanLines := splitLines "" |}.

(** A stand-in for the digest. *)
Definition toy_digest : CryptoLib :=
  {| sha256_hex := fun data =>
       if String.eqb data "archive bytes" then "abc123" else "000000" |}.

Definition linux_amd64 : RuntimeLib := {| GOOS := "linux"; GOARCH := "amd64" |}.

(** Versions that are one decimal number. *)
Definition all_digits (s : string) : bool :=
  negb (String.eqb s "")
  && forallb (fun c => (48 <=? nat_of_ascii c)%nat && (nat_of_ascii c <=? 57)%nat) (chars s).

Definition digits_value (s : string) : N :=
  fold_left (fun n c => (10 * n + N.of_nat (nat_of_ascii c - 48))%N) (chars s) 0%N.

Definition number_versions : VersionLib :=
  {| Version := N;
     NewVersion := fun s =>
       if all_digits s then Ok (digits_value s)
       else Err (Errorf ("Malformed version: " +:+ s));
     Compare := fun a b =>
       match N.compare a b with Lt => (-1)%Z | Eq => 0%Z | Gt => 1%Z end |}.

(** The tar archive of the specification's example, and a zip archive
    whose first entry is a directory. *)
Definition regular (name data : string) : TarStep :=
  TarEntry {| Typeflag := upgrade.TypeReg; hdr_Name := name |}
           {| rd_bytes := data; rd_err := None |}.

Definition example_tar : list TarStep :=
  [regular "other-linux_amd64" "other";
   regular "app-linux_amd64" "new binary";
   regular "app-linux_amd64.bak" "backup"].

Definition example_zip : list ZipFile :=
  [{| zip_Name := "other-linux_amd64";
      zip_Open := Ok {| rd_bytes := "other"; rd_err := None |} |};
   {| zip_Name := "app-linux_amd64/";
      zip_Open := Ok {| rd_bytes := ""; rd_err := None |} |};
   {| zip_Name := "app-linux_amd64/app-linux_amd64";
      zip_Open := Ok {| rd_bytes := "new binary"; rd_err := None |} |}].

Definition example_archives : ArchiveLib :=
  {| gzip_NewReader := fun r => Ok r;
     tar_Next := fun _ => example_tar;
     zip_NewReader := fun _ _ => Ok example_zip |}.

(** A release with a binary for two platforms and a manifest. *)
Definition example_assets : list Asset :=
  [{| BrowserDownloadURL := "app_linux_amd64.tar.gz" |};
   {| BrowserDownloadURL := "app_darwin_arm64.zip" |};
   {| BrowserDownloadURL := "checksums.txt" |}].

Definition example_release : ReleaseInfo :=
  {| TagName := "2"; Assets := example_assets |}.

Definition example_releases : ReleaseLib :=
  {| release_NewReleaseGetter := fun _ _ => mret (Ok example_release) |}.

Definition example_manifest : string :=
  "abc123  app_linux_amd64.tar.gz" +:+ newline.

(** A machine with the executable installed, where no call is refused. *)
Definition world0 : World :=
  {| files := {[ "/usr/local/bin/app" := {| f_bytes := "old binary"; f_mode := mode_0755 |} ]};
     TempDir := "/tmp";
     random := fun n => N.of_nat (7 + n);
     drawn := 0;
     refuse := fun _ => None;
     network := fun url =>
       if String.eqb url "checksums.txt"
       then Ok {| rd_bytes := example_manifest; rd_err := None |}
       else Ok {| rd_bytes := "archive bytes"; rd_err := None |};
     calls := [] |}.

(** The same machine when the system refuses every rename. *)
Definition world_no_rename : World :=
  {| files := files world0; TempDir := TempDir world0; random := random world0;
     drawn := 0;
     refuse := fun c =>
       match c with
       | SysRename _ _ => Some (errors_New "invalid cross-device link")
       | _ => None
       end;
     network := network world0; calls := [] |}.

Definition example_downloader : asset.downloader :=
  {| asset.os := "linux"; asset.arch := "amd64";
     asset.executablePath := "/usr/local/bin/app" |}.

Definition example_upgrader : upgrade.upgrader :=
  @upgrade.NewUpgrader ascii_strings short_lines toy_digest linux_amd64
    example_releases "apoxy-dev" "app" "/usr/local/bin/app" [].

(** What the download of the first asset returns on [world0]. *)
Definition example_url : string := "app_linux_amd64.tar.gz".

Definition example_info : asset.Info :=
  {| asset.Checksum := "abc123";
     asset.DownloadedBinaryFilePath := "/tmp/app7";
     asset.PlatformSuffix := "";
     asset.ArSuffix := "" |}.

Definition example_cleanup : asset.cleanupFn := os_Remove "/tmp/app7".

Definition world_downloaded : World :=
  (@asset.downloadAsset toy_digest example_downloader example_url world0).2.

Definition example_validator : checksum.validator :=
  {| checksum.os := "linux"; checksum.arch := "amd64" |}.

Definition example_checksums : checksum.Info :=
  {| checksum.Checksums := {[ "app_linux_amd64" := "abc123" ]} |}.


(** A machine on which the download of the asset is cut short. *)
Definition world_cut_short : World :=
  {| files := files world0; TempDir := TempDir world0; random := random world0;
     drawn := 0; refuse := refuse world0;
     network := fun _ =>
       Ok {| rd_bytes := "archive"; rd_err := Some (errors_New "unexpected EOF") |};
     calls := [] |}.

Definition world_after_cut : World :=
  (@asset.downloadAsset toy_digest example_downloader example_url world_cut_short).2.

(** What [DownloadAsset] returns for the example release on [world0]. *)
Definition example_matched_info : asset.Info :=
  {| asset.Checksum := "abc123";
     asset.DownloadedBinaryFilePath := "/tmp/app7";
     asset.PlatformSuffix := "linux_amd64";
     asset.ArSuffix := ".tar.gz" |}.

(** A manifest in which a later line replaces an earlier one. *)
Definition example_line_old : string := "ffffff  app_linux_amd64.zip".
Definition example_line_new : string := "ABC123  app_linux_amd64.tar.gz".

Definition example_manifest_twice : string :=
  example_line_old +:+ newline +:+ example_line_new +:+ newline.

(** * Part II: facts about the program *)

(** ** Byte strings *)

Lemma sapp_cons (c : ascii) (a b : string) : String c a +:+ b = String c (a +:+ b).
Proof. reflexivity. Qed.

Lemma sapp_nil_l (b : string) : "" +:+ b = b.
Proof. reflexivity. Qed.

Lemma slen_app (a b : string) : slen (a +:+ b) = slen a + slen b.
Proof.
  induction a as [|c a IH]; rewrite ?sapp_cons, ?sapp_nil_l; simpl; [done | by rewrite IH].
Qed.

Lemma sapp_nil_r (a : string) : a +:+ "" = a.
Proof. induction a as [|c a IH]; rewrite ?sapp_cons; [done | by rewrite IH]. Qed.

Lemma sapp_assoc (a b c : string) : (a +:+ b) +:+ c = a +:+ b +:+ c.
Proof. induction a as [|x a IH]; rewrite ?sapp_cons; [done | by rewrite IH]. Qed.

Lemma substring_all (s : string) : substring 0 (slen s) s = s.
Proof. induction s as [|c s IH]; simpl; [done | by rewrite IH]. Qed.

Lemma substring_app_head (a b : string) : substring 0 (slen a) (a +:+ b) = a.
Proof.
  induction a as [|c a IH]; rewrite ?sapp_cons, ?sapp_nil_l; simpl.
  - by destruct b.
  - by rewrite IH.
Qed.

Lemma substring_app_tail (a b : string) :
  substring (slen a) (slen b) (a +:+ b) = b.
Proof.
  induction a as [|c a IH]; rewrite ?sapp_cons, ?sapp_nil_l; simpl;
    [apply substring_all | done].
Qed.

Lemma substring_split (s : string) (n : nat) :
  n <= slen s -> substring 0 n s +:+ substring n (slen s - n) s = s.
Proof.
  revert n; induction s as [|c s IH]; intros [|n] Hn; simpl in *; try lia.
  - done.
  - by rewrite sapp_nil_l, substring_all.
  - rewrite sapp_cons, IH; [done | lia].
Qed.

Lemma chars_app (a b : string) : chars (a +:+ b) = chars a ++ chars b.
Proof.
  induction a as [|c a IH]; rewrite ?sapp_cons, ?sapp_nil_l; simpl; [done | by rewrite IH].
Qed.


(** ** [strings.HasSuffix] and [strings.TrimSuffix] *)

Lemma HasSuffix_app (a suffix : string) :
  strings.HasSuffix (a +:+ suffix) suffix = true.
Proof.
  unfold strings.HasSuffix. rewrite slen_app.
  replace (slen a + slen suffix - slen suffix) with (slen a) by lia.
  rewrite substring_app_tail, String.eqb_refl, andb_true_r.
  apply Nat.leb_le; lia.
Qed.

Lemma HasSuffix_split (s suffix : string) :
  strings.HasSuffix s suffix = true ->
  s = substring 0 (slen s - slen suffix) s +:+ suffix.
Proof.
  unfold strings.HasSuffix. intros [Hl He]%andb_true_iff.
  apply Nat.leb_le in Hl. apply String.eqb_eq in He.
  pose proof (substring_split s (slen s - slen suffix)) as Hs.
  replace (slen s - (slen s - slen suffix)) with (slen suffix) in Hs by lia.
  rewrite He in Hs. symmetry; apply Hs; lia.
Qed.

Lemma HasSuffix_iff (s suffix : string) :
  strings.HasSuffix s suffix = true <-> exists a, s = a +:+ suffix.
Proof.
  split.
  - intros Hs; eexists; by apply HasSuffix_split.
  - intros [a ->]; apply HasSuffix_app.
Qed.

Lemma TrimSuffix_app (a suffix : string) : strings.TrimSuffix (a +:+ suffix) suffix = a.
Proof.
  unfold strings.TrimSuffix. rewrite HasSuffix_app, slen_app.
  replace (slen a + slen suffix - slen suffix) with (slen a) by lia.
  apply substring_app_head.
Qed.

Lemma TrimSuffix_none (s suffix : string) :
  strings.HasSuffix s suffix = false -> strings.TrimSuffix s suffix = s.
Proof. unfold strings.TrimSuffix; by intros ->. Qed.

(** The test [t != u] after [t := strings.TrimSuffix(u, s)] detects the
    suffix [s]. *)
Lemma TrimSuffix_changed (s suffix : string) :
  suffix <> "" ->
  String.eqb (strings.TrimSuffix s suffix) s = negb (strings.HasSuffix s suffix).
Proof.
  intros Hne. destruct (strings.HasSuffix s suffix) eqn:Hs.
  - apply HasSuffix_iff in Hs as [a ->]. rewrite TrimSuffix_app. simpl.
    apply String.eqb_neq. intros Heq.
    apply (f_equal slen) in Heq. rewrite slen_app in Heq.
    destruct suffix; [done | simpl in Heq; lia].
  - rewrite TrimSuffix_none by done. apply String.eqb_refl.
Qed.

(** ** [filepath.Ext] *)

Lemma Ext_app (stem ext : string) :
  filepath.Ext (stem +:+ ext) = filepath.Ext_scan (rev (chars ext) ++ rev (chars stem)) "".
Proof. unfold filepath.Ext. by rewrite chars_app, rev_app_distr. Qed.

(** A path that ends in [.tar.gz] has the extension [.gz]. *)
Lemma Ext_tar_gz (stem : string) : filepath.Ext (stem +:+ ".tar.gz") = ".gz".
Proof. by rewrite Ext_app. Qed.

Lemma Ext_scan_shape (rpath : list ascii) (tail : string) :
  NoDot tail ->
  filepath.Ext_scan rpath tail = ""
  \/ exists t, filepath.Ext_scan rpath tail = String "." t /\ NoDot t.
Proof.
  revert tail; induction rpath as [|c r IH]; intros tail Ht; simpl; [by left |].
  destruct (filepath.IsPathSeparator c); [by left |].
  destruct (Ascii.eqb c ".") eqn:Hc.
  - right. exists tail. apply Ascii.eqb_eq in Hc. by subst.
  - apply IH. intros x [<- | Hx]; [| by apply Ht].
    by apply Ascii.eqb_neq in Hc.
Qed.

(** [filepath.Ext] returns at most one dot: it is never [.tar.gz]. *)
Lemma Ext_not_tar_gz (path : string) : filepath.Ext path <> ".tar.gz".
Proof.
  destruct (Ext_scan_shape (rev (chars path)) "") as [He | (t & He & Ht)].
  - by intros c [].
  - unfold filepath.Ext; by rewrite He.
  - unfold filepath.Ext; rewrite He. intros [= ->].
    apply (Ht "."%char); [| done]. simpl; tauto.
Qed.

(** No dot after the last slash: no extension. *)
Lemma Ext_scan_NoDot (l r : list ascii) (tail : string) :
  (forall c, In c l -> c <> "."%char) ->
  filepath.Ext_scan (l ++ "/"%char :: r) tail = "".
Proof.
  revert tail; induction l as [|c l IH]; intros tail Hl; simpl; [done |].
  destruct (filepath.IsPathSeparator c); [done |].
  destruct (Ascii.eqb c ".") eqn:Hc.
  - apply Ascii.eqb_eq in Hc. exfalso. apply (Hl c); [by left | done].
  - apply IH. intros x Hx. apply Hl. by right.
Qed.

Lemma Ext_NoDot (dir name : string) :
  NoDot name -> filepath.Ext (dir +:+ "/" +:+ name) = "".
Proof.
  intros Hn. rewrite Ext_app, chars_app. simpl.
  rewrite <- app_assoc. simpl. apply Ext_scan_NoDot.
  intros c Hc. apply Hn. by apply in_rev.
Qed.

(** ** The extraction helpers *)

Lemma prefixAndSuffix_tempPattern (prefix : string) :
  prefixAndSuffix (upgrade.tempPattern prefix) = Err errPatternHasSeparator.
Proof. reflexivity. Qed.

(** [os.CreateTemp] rejects the pattern of the extraction helpers, and
    only the call is recorded. *)
Lemma os_CreateTemp_tempPattern (dir prefix : string) (w : World) :
  os_CreateTemp dir (upgrade.tempPattern prefix) w
  = (Err (PathError "createtemp" (upgrade.tempPattern prefix) errPatternHasSeparator),
     log (EvCreateTemp dir (upgrade.tempPattern prefix)) w).
Proof.
  unfold os_CreateTemp, mbind, M_bind, emit.
  by rewrite prefixAndSuffix_tempPattern.
Qed.

Section extraction.
Context `{ArchiveLib}.

Lemma unTar_fails (prefix : string) (r : Reader) (w : World) :
  upgrade.unTar prefix r w
  = (Err (Errorf_w "failed to create temp file: "
            (PathError "createtemp" (upgrade.tempPattern prefix) errPatternHasSeparator) ""),
     log (EvCreateTemp "" (upgrade.tempPattern prefix)) (log EvTarNewReader w)).
Proof.
  unfold upgrade.unTar, mbind, M_bind, emit.
  by rewrite os_CreateTemp_tempPattern.
Qed.

Lemma unGz_fails (prefix : string) (r : Reader) (w : World) :
  is_Ok (upgrade.unGz prefix r w).1 = false
  /\ files (upgrade.unGz prefix r w).2 = files w
  /\ exists evs, calls (upgrade.unGz prefix r w).2 = calls w ++ evs
                 /\ ~ In EvTarNewReader evs.
Proof.
  unfold upgrade.unGz, mbind, M_bind, emit.
  destruct (gzip_NewReader r) as [gzr | e].
  - rewrite os_CreateTemp_tempPattern. simpl. split; [done | split; [done |]].
    eexists. rewrite <- app_assoc. split; [done |].
    simpl. intros [Hc | [Hc | []]]; discriminate.
  - simpl. split; [done | split; [done |]].
    eexists. split; [done |]. simpl. intros [Hc | []]; discriminate.
Qed.

Lemma unZip_loop_fails (prefix : string) (zfiles : list ZipFile) (w : World) :
  is_Ok (upgrade.unZip_loop prefix zfiles w).1 = false
  /\ files (upgrade.unZip_loop prefix zfiles w).2 = files w.
Proof.
  induction zfiles as [|f rest IH]; simpl; [done |].
  destruct (strings.HasPrefix _ prefix); simpl; [| done].
  destruct (zip_Open f) as [rc | e]; [| done].
  unfold mbind, M_bind. by rewrite os_CreateTemp_tempPattern.
Qed.

Lemma unZip_fails (prefix : string) (r : Reader) (w : World) :
  is_Ok (upgrade.unZip prefix r w).1 = false
  /\ files (upgrade.unZip prefix r w).2 = files w.
Proof.
  unfold upgrade.unZip, mbind, M_bind, emit.
  destruct (zip_NewReader r 0) as [zfiles | e]; [| done].
  apply (unZip_loop_fails prefix zfiles (log EvZipNewReader w)).
Qed.

(** C3.  For every prefix, every input and every state of the system,
    [unTar], [unZip] and [unGz] return an error and leave every file as
    it was: the pattern ["/tmp/" + prefix + "-*"] contains a path
    separator, which [os.CreateTemp] rejects before anything is written. *)
Theorem extraction_helpers_never_succeed (prefix : string) (r : Reader) (w : World) :
  (is_Ok (upgrade.unTar prefix r w).1 = false /\ files (upgrade.unTar prefix r w).2 = files w)
  /\ (is_Ok (upgrade.unZip prefix r w).1 = false /\ files (upgrade.unZip prefix r w).2 = files w)
  /\ (is_Ok (upgrade.unGz prefix r w).1 = false /\ files (upgrade.unGz prefix r w).2 = files w)
  /\ (forall dir w', is_Ok (os_CreateTemp dir (upgrade.tempPattern prefix) w').1 = false).
Proof.
  split; [| split; [| split]].
  - by rewrite unTar_fails.
  - apply unZip_fails.
  - destruct (unGz_fails prefix r w) as (? & ? & _); by split.
  - intros dir w'. by rewrite os_CreateTemp_tempPattern.
Qed.

(** The route through [unTarGz] makes a tar reader as soon as the gzip
    header is accepted. *)
Lemma unTarGz_makes_tar_reader (prefix : string) (r gzr : Reader) (w : World) :
  gzip_NewReader r = Ok gzr ->
  calls (upgrade.unTarGz prefix r w).2
  = calls w ++ [EvGzipNewReader; EvTarNewReader;
                EvCreateTemp "" (upgrade.tempPattern prefix)].
Proof.
  intros Hg. unfold upgrade.unTarGz, mbind, M_bind, emit. rewrite Hg, unTar_fails.
  simpl. by rewrite <- !app_assoc.
Qed.

(** *** The switch of [tryUnArchive] *)

(** What [tryUnArchive] does once the extension is known: [route] is the
    helper the switch selects. *)
Lemma tryUnArchive_open (prefix arPath : string) (w : World) :
  (exists e, os_Open arPath w = (Err e, log (EvOpen arPath) w)
             /\ upgrade.tryUnArchive prefix arPath w
                = (Err (Errorf_w "failed to open file: " e ""), log (EvOpen arPath) w))
  \/ (exists f, os_Open arPath w = (Ok f, log (EvOpen arPath) w)).
Proof.
  unfold upgrade.tryUnArchive, mbind, M_bind, os_Open.
  destruct (refuse _ _); [left; eauto |].
  destruct (files _ !! arPath); [right; eauto | left; eauto].
Qed.

Lemma tryUnArchive_dispatch (prefix arPath : string) (f : Reader) (w : World) :
  os_Open arPath w = (Ok f, log (EvOpen arPath) w) ->
  let w1 := log (EvOpen arPath) w in
  (filepath.Ext arPath = ".zip" ->
     upgrade.tryUnArchive prefix arPath w = upgrade.unZip prefix f w1)
  /\ (filepath.Ext arPath = ".tar" ->
     upgrade.tryUnArchive prefix arPath w = upgrade.unTar prefix f w1)
  /\ (filepath.Ext arPath = ".gz" ->
     upgrade.tryUnArchive prefix arPath w = upgrade.unGz prefix f w1)
  /\ (filepath.Ext arPath = "" ->
     upgrade.tryUnArchive prefix arPath w = (Ok arPath, w1))
  /\ (~ In (filepath.Ext arPath) [".tar.gz"; ".zip"; ".tar"; ".gz"; ""] ->
     upgrade.tryUnArchive prefix arPath w
     = (Err (Errorf ("unsupported file type: " +:+ filepath.Ext arPath)), w1)).
Proof.
  intros Ho w1. unfold upgrade.tryUnArchive, mbind, M_bind. rewrite Ho.
  repeat split; try (by intros ->).
  intros Hn.
  assert (Hne : forall s, In s [".tar.gz"; ".zip"; ".tar"; ".gz"; ""] ->
                 String.eqb (filepath.Ext arPath) s = false).
  { intros s Hs. apply String.eqb_neq. intros He. apply Hn. by rewrite He. }
  rewrite !Hne by (simpl; tauto). done.
Qed.

(** C1 (at the failing input).  For every path that ends in [.tar.gz],
    [filepath.Ext] is [.gz], so that the switch of [tryUnArchive] takes
    the case of [unGz]: the file is only gunzipped and no tar reader is
    ever made.  The case [".tar.gz"] of the switch is dead code. *)
Theorem tryUnArchive_tar_gz_is_only_gunzipped (prefix stem : string) (w : World) :
  let arPath := stem +:+ ".tar.gz" in
  filepath.Ext arPath = ".gz"
  /\ upgrade.tryUnArchive prefix arPath w
     = (f ← os_Open arPath;
        match f with
        | Err e => mret (Err (Errorf_w "failed to open file: " e ""))
        | Ok f => upgrade.unGz prefix f
        end) w
  /\ (exists evs, calls (upgrade.tryUnArchive prefix arPath w).2 = calls w ++ evs
                  /\ ~ In EvTarNewReader evs)
  /\ (forall path, filepath.Ext path <> ".tar.gz").
Proof.
  intros arPath. pose proof (Ext_tar_gz stem) as He. fold arPath in He.
  assert (Heq : upgrade.tryUnArchive prefix arPath w
     = (f ← os_Open arPath;
        match f with
        | Err e => mret (Err (Errorf_w "failed to open file: " e ""))
        | Ok f => upgrade.unGz prefix f
        end) w).
  { unfold upgrade.tryUnArchive. by rewrite He. }
  split; [done | split; [done | split; [| apply Ext_not_tar_gz]]].
  rewrite Heq. unfold mbind, M_bind.
  destruct (tryUnArchive_open prefix arPath w) as [(e & Ho & _) | (f & Ho)];
    rewrite Ho.
  - exists [EvOpen arPath]. split; [done |]. simpl. intros [Hc | []]; discriminate.
  - destruct (unGz_fails prefix f (log (EvOpen arPath) w)) as (_ & _ & evs & Hc & Hn).
    exists (EvOpen arPath :: evs). split.
    + rewrite Hc. simpl. by rewrite <- app_assoc.
    + simpl. intros [Hx | Hx]; [discriminate | by apply Hn].
Qed.

End extraction.

(** ** The name of the temporary file *)









(** ** The downloaded file is what [Upgrade] installs *)

Section upgrade_facts.
Context `{StringsLib} `{BufioLib} `{CryptoLib} `{RuntimeLib} `{ReleaseLib}
        `{ArchiveLib} `{VersionLib}.


(** With no extension, [tryUnArchive] opens the file and returns its
    path: no archive reader is made, no file is created. *)
Lemma tryUnArchive_no_extension (prefix arPath : string) (w : World) :
  filepath.Ext arPath = "" ->
  upgrade.tryUnArchive prefix arPath w
  = (match (os_Open arPath w).1 with
     | Ok _ => Ok arPath
     | Err e => Err (Errorf_w "failed to open file: " e "")
     end, log (EvOpen arPath) w).
Proof.
  intros He.
  destruct (tryUnArchive_open prefix arPath w) as [(e & Ho & ->) | (f & Ho)].
  - by rewrite Ho.
  - rewrite Ho. simpl.
    by apply (tryUnArchive_dispatch prefix arPath f w Ho).
Qed.



End upgrade_facts.

(** ** The asset matcher *)

Lemma stripArchive_spec (u : string) :
  asset.stripArchive u archiveSuffixes = stripKnownArchiveSuffix u.
Proof.
  unfold stripKnownArchiveSuffix, archiveSuffixes. simpl.
  rewrite !TrimSuffix_changed, !negb_involutive by done.
  unfold strings.TrimSuffix.
  repeat (destruct (strings.HasSuffix u _); [done |]).
  done.
Qed.

Lemma stripArchive_tar_gz (stem : string) :
  asset.stripArchive (stem +:+ ".tar.gz") archiveSuffixes = (".tar.gz", stem).
Proof.
  simpl. rewrite TrimSuffix_changed by done.
  by rewrite HasSuffix_app, TrimSuffix_app.
Qed.

Section asset_facts.
Context `{StringsLib} `{CryptoLib}.

Lemma DownloadAsset_loop_find (d : asset.downloader) (suffix : string)
  (assets : list Asset) (w : World) :
  asset.DownloadAsset_loop d suffix assets w
  = match find (assetMatches suffix) assets with
    | None =>
        (Err (Errorf_w "" asset.ErrNoAsset
                (": os:" +:+ asset.os d +:+ " arch:" +:+ asset.arch d)), w)
    | Some a =>
        let '(r, w') := asset.downloadAsset d (BrowserDownloadURL a) w in
        (match r with
         | Err e => Err e
         | Ok (info, c) =>
             Ok ({| asset.Checksum := asset.Checksum info;
                    asset.DownloadedBinaryFilePath := asset.DownloadedBinaryFilePath info;
                    asset.PlatformSuffix := suffix;
                    asset.ArSuffix :=
                      (stripKnownArchiveSuffix
                         (strings_ToLower (BrowserDownloadURL a))).1 |}, Some c)
         end, w')
    end.
Proof.
  induction assets as [|a rest IH]; [done |].
  cbn [asset.DownloadAsset_loop find]. unfold assetMatches.
  rewrite stripArchive_spec.
  destruct (stripKnownArchiveSuffix _) as [ar u'] eqn:Hn. simpl.
  destruct (strings.HasSuffix u' suffix); [| apply IH].
  unfold mbind, M_bind.
  destruct (asset.downloadAsset d _ w) as [[[info c] | e] w']; by rewrite ?Hn.
Qed.

(** C9.  [DownloadAsset] answers with the first asset of the list whose
    lower-cased URL, after the first matching one of [.tar.gz], [.tar],
    [.zip], [.gz] is stripped, ends with [<os>_<arch>]; it downloads that
    asset and reports the stripped suffix (empty when none) and the
    platform suffix.  With no such asset it fails with [ErrNoAsset] and a
    text that names the OS and the architecture.  A lower-cased URL that
    ends in [.tar.gz] has [.tar.gz] stripped, not [.tar]. *)
Theorem DownloadAsset_selects_first_match (d : asset.downloader)
  (assets : list Asset) (w : World) :
  let target := asset.os d +:+ "_" +:+ asset.arch d in
  let none := Errorf_w "" asset.ErrNoAsset
                (": os:" +:+ asset.os d +:+ " arch:" +:+ asset.arch d) in
  asset.DownloadAsset d assets w
  = match find (assetMatches target) assets with
    | None => (Err none, w)
    | Some a =>
        let '(r, w') := asset.downloadAsset d (BrowserDownloadURL a) w in
        (match r with
         | Err e => Err e
         | Ok (info, c) =>
             Ok ({| asset.Checksum := asset.Checksum info;
                    asset.DownloadedBinaryFilePath := asset.DownloadedBinaryFilePath info;
                    asset.PlatformSuffix := target;
                    asset.ArSuffix :=
                      (stripKnownArchiveSuffix
                         (strings_ToLower (BrowserDownloadURL a))).1 |}, Some c)
         end, w')
    end
  /\ Error none = "no asset found: os:" +:+ asset.os d +:+ " arch:" +:+ asset.arch d
  /\ errors_Is none asset.ErrNoAsset = true
  /\ forall stem, stripKnownArchiveSuffix (stem +:+ ".tar.gz") = (".tar.gz", stem).
Proof.
  intros target none. split; [apply DownloadAsset_loop_find |].
  split; [| split].
  - unfold none. simpl. by rewrite sapp_nil_l.
  - done.
  - intros stem. rewrite <- stripArchive_spec. apply stripArchive_tar_gz.
Qed.

End asset_facts.

(** ** The two normalisations *)



Section normalisation.
Context `{StringsLib}.


End normalisation.

(** ** The checksum validator *)

Section validator.
Context `{StringsLib}.

(** C10 (amended).  [IsCheckSumValid] looks up [<binary>_<os>_<arch>].
    With no such key it returns false.  With the key present it returns
    true exactly when the stored checksum and the digest are the same
    string, byte for byte; for two strings that lower-casing leaves
    unchanged this is equality up to case. *)
Theorem IsCheckSumValid_compares_exactly (v : checksum.validator)
  (binary : string) (info : checksum.Info) (digest : string) :
  let key := binary +:+ "_" +:+ checksum.os v +:+ "_" +:+ checksum.arch v in
  (checksum.Checksums info !! key = None ->
     checksum.IsCheckSumValid v binary info digest = false)
  /\ (forall stored, checksum.Checksums info !! key = Some stored ->
        (checksum.IsCheckSumValid v binary info digest = true <-> stored = digest)
        /\ (strings_ToLower stored = stored -> strings_ToLower digest = digest ->
            (checksum.IsCheckSumValid v binary info digest = true
             <-> strings_ToLower stored = strings_ToLower digest))).
Proof.
  intros key. unfold checksum.IsCheckSumValid. fold key. split.
  - by intros ->.
  - intros stored ->. rewrite String.eqb_eq. split; [done |].
    intros Hs Hd. by rewrite Hs, Hd.
Qed.

End validator.

(** ** The checksum manifest *)

Section manifest.
Context `{StringsLib} `{BufioLib}.

Lemma scanLines_fold (acc : gmap string string) (lines : list string) :
  checksum.scanLines acc lines
  = if forallb twoFields lines
    then Ok (fold_left (fun m l => <[(lineEntry l).1 := (lineEntry l).2]> m) lines acc)
    else Err errMalformed.
Proof.
  revert acc; induction lines as [|line rest IH]; intros acc; [done |].
  cbn [checksum.scanLines forallb fold_left].
  assert (HT : twoFields line = Nat.eqb (length (lineFields line)) 2) by done.
  assert (HE : lineEntry line
               = match lineFields line with
                 | [sum; filename] => (checksum.manifestKey filename, strings_ToLower sum)
                 | _ => ("", "")
                 end) by done.
  rewrite HT, HE. change (strings_Fields (strings_TrimSpace line)) with (lineFields line).
  destruct (lineFields line) as [|a [|b [|c l]]]; first [done | simpl; apply IH].
Qed.

Lemma fold_insert_list_to_map (entries : list (string * string))
  (acc : gmap string string) :
  fold_left (fun m e => <[e.1 := e.2]> m) entries acc
  = list_to_map (rev entries) ∪ acc.
Proof.
  revert acc; induction entries as [|[k v] rest IH]; intros acc; simpl.
  - by rewrite (left_id_L ∅ (∪)).
  - rewrite IH, list_to_map_app. simpl.
    rewrite <- (assoc_L (∪)), <- insert_union_l.
    by rewrite (left_id_L ∅ (∪)).
Qed.

Lemma fold_lines_list_to_map (lines : list string) (acc : gmap string string) :
  fold_left (fun m l => <[(lineEntry l).1 := (lineEntry l).2]> m) lines acc
  = list_to_map (rev (map lineEntry lines)) ∪ acc.
Proof.
  rewrite <- fold_insert_list_to_map.
  revert acc; induction lines as [|l rest IH]; intros acc; simpl; [done | apply IH].
Qed.

Lemma manifest_nonempty (line : string) (rest : list string) :
  size (list_to_map (rev (map lineEntry (line :: rest))) : gmap string string) <> 0.
Proof.
  intros Hs%map_size_empty_inv.
  assert (Hl : is_Some ((list_to_map (rev (map lineEntry (line :: rest)))
                         : gmap string string) !! (lineEntry line).1)).
  { simpl. rewrite list_to_map_app. apply lookup_union_is_Some. right.
    destruct (lineEntry line) as [k v]. simpl. rewrite lookup_insert_eq. eauto. }
  rewrite Hs, lookup_empty in Hl. by destruct Hl.
Qed.


End manifest.

(** ** The version gate and the replacement *)

Section gate.
Context `{StringsLib} `{BufioLib} `{CryptoLib} `{RuntimeLib} `{ReleaseLib}
        `{ArchiveLib} `{VersionLib}.

(** C7.  When both versions parse and the comparison says the latest
    release is not greater than the current version, [Upgrade] returns
    nil and the world is the one the release fetch left: no asset is
    downloaded, no file is touched.  [IsNewVersionAvailable] returns true
    exactly when the latest version compares greater than the current
    one, and an error when either version does not parse. *)
Theorem no_upgrade_unless_newer (u : upgrade.upgrader) (currentVersion : string)
  (w : World) :
  (forall e, NewVersion currentVersion = Err e ->
     is_Ok (upgrade.IsNewVersionAvailable u currentVersion w).1 = false)
  /\ (forall curr rel w1,
        NewVersion currentVersion = Ok curr ->
        upgrade.releaseGetter u w = (Ok rel, w1) ->
        (forall e, NewVersion (TagName rel) = Err e ->
           is_Ok (upgrade.IsNewVersionAvailable u currentVersion w).1 = false)
        /\ (forall latest, NewVersion (TagName rel) = Ok latest ->
              upgrade.IsNewVersionAvailable u currentVersion w
              = (Ok (bool_decide (0 < Compare latest curr)%Z), w1)
              /\ ((Compare latest curr <= 0)%Z ->
                  upgrade.Upgrade u currentVersion w = (None, w1)))).
Proof.
  split.
  - intros e He. unfold upgrade.IsNewVersionAvailable. by rewrite He.
  - intros curr rel w1 Hc Hr. split.
    + intros e He. unfold upgrade.IsNewVersionAvailable, mbind, M_bind.
      by rewrite Hc, Hr, He.
    + intros latest Hl. split.
      * unfold upgrade.IsNewVersionAvailable, mbind, M_bind.
        rewrite Hc, Hr, Hl. unfold GreaterThan, mret, M_ret. do 2 f_equal.
        destruct (Z.ltb_spec 0 (Compare latest curr)).
        -- symmetry. by apply bool_decide_eq_true.
        -- symmetry. apply bool_decide_eq_false. lia.
      * intros Hle. unfold upgrade.Upgrade, mbind, M_bind.
        rewrite Hc, Hr, Hl. unfold LessThanOrEqual.
        by rewrite (proj2 (Z.leb_le _ _) Hle).
Qed.

End gate.


(** ** The scans of [unTar] and [unZip] *)




Section scans.
Context `{ArchiveLib}.


End scans.

(** ** A failed [Upgrade] and the executable *)







Section failed_upgrade.
Context `{StringsLib} `{BufioLib} `{CryptoLib} `{RuntimeLib} `{ReleaseLib}
        `{ArchiveLib} `{VersionLib}.







End failed_upgrade.

(** * Part III: the worked examples *)

(** ** The examples of the specification *)

(** Platform selection: the first asset is chosen, with archive suffix
    [.tar.gz]. *)
Example platform_selection :
  let r := @asset.DownloadAsset ascii_strings toy_digest example_downloader
             example_assets world0 in
  (match r.1 with
   | Ok (info, _) => Some (asset.PlatformSuffix info, asset.ArSuffix info)
   | Err _ => None
   end) = Some ("linux_amd64", ".tar.gz")
  /\ calls r.2 = [EvHttpGet "app_linux_amd64.tar.gz"; EvCreateTemp "" "app";
                  EvCopy "/tmp/app7"; EvChmod "/tmp/app7" mode_0755].
Proof. by vm_compute. Qed.

(** Manifest round trip. *)
Example manifest_round_trip :
  @checksum.parseManifest ascii_strings short_lines example_manifest
  = Ok {| checksum.Checksums := {[ "app_linux_amd64" := "abc123" ]} |}
  /\ @checksum.parseManifest ascii_strings short_lines ("onlyonefield" +:+ newline)
     = Err errMalformed
  /\ @checksum.parseManifest ascii_strings short_lines "" = Err errEmpty.
Proof. by vm_compute. Qed.

(** A whole run: version 1 installed, release 2 published.  The file
    that replaces the executable holds the bytes of the [.tar.gz] asset
    as they were downloaded. *)
Example upgrade_run :
  let r := @upgrade.Upgrade example_archives number_versions example_upgrader "1" world0 in
  r.1 = None
  /\ calls r.2 = [EvHttpGet "app_linux_amd64.tar.gz"; EvCreateTemp "" "app";
                  EvCopy "/tmp/app7"; EvChmod "/tmp/app7" mode_0755;
                  EvHttpGet "checksums.txt"; EvOpen "/tmp/app7";
                  EvRename "/tmp/app7" "/usr/local/bin/app";
                  EvRemove "/tmp/app7"; EvRemove "/tmp/app7"]
  /\ files r.2 = {[ "/usr/local/bin/app" :=
                      {| f_bytes := "archive bytes"; f_mode := mode_0755 |} ]}.
Proof. by vm_compute. Qed.

(** The same run when the rename is refused: the executable is as it
    was, and no temporary file is left. *)
Example upgrade_run_rename_refused :
  let r := @upgrade.Upgrade example_archives number_versions example_upgrader "1"
             world_no_rename in
  r.1 = Some (Errorf_w "failed to replace binary: "
                (Errorf_w "failed to replace binary: "
                   (LinkError "rename" "/tmp/app7" "/usr/local/bin/app"
                      (errors_New "invalid cross-device link")) "") "")
  /\ files r.2 = files world_no_rename.
Proof. by vm_compute. Qed.

(** ** Witnesses and counterexamples *)






(** The two failures of the manifest parser wrap the same sentinel:
    [errors.Is] with [ErrInvalidChecksumFile] holds of both. *)
Lemma manifest_errors_share_sentinel :
  exists e1 e2,
    @checksum.parseManifest ascii_strings short_lines ("onlyonefield" +:+ newline) = Err e1
    /\ @checksum.parseManifest ascii_strings short_lines "" = Err e2
    /\ sentinel e1 = sentinel e2
    /\ Unwrap e1 = Some checksum.ErrInvalidChecksumFile
    /\ Unwrap e2 = Some checksum.ErrInvalidChecksumFile
    /\ errors_Is e1 checksum.ErrInvalidChecksumFile = true
    /\ errors_Is e2 checksum.ErrInvalidChecksumFile = true.
Proof. exists errMalformed, errEmpty. by vm_compute. Qed.

Lemma no_upgrade_unless_newer_witness :
  @NewVersion number_versions "2" = Ok 2%N
  /\ upgrade.releaseGetter example_upgrader world0 = (Ok example_release, world0)
  /\ @NewVersion number_versions (TagName example_release) = Ok 2%N
  /\ (@Compare number_versions 2%N 2%N <= 0)%Z
  /\ @upgrade.IsNewVersionAvailable number_versions example_upgrader "2" world0
     = (Ok false, world0)
  /\ @upgrade.Upgrade example_archives number_versions example_upgrader "2" world0
     = (None, world0).
Proof.
  assert (H1 : @NewVersion number_versions "2" = Ok 2%N) by reflexivity.
  assert (H2 : upgrade.releaseGetter example_upgrader world0
               = (Ok example_release, world0)) by reflexivity.
  assert (H3 : @NewVersion number_versions (TagName example_release) = Ok 2%N)
    by reflexivity.
  assert (H4 : (@Compare number_versions 2%N 2%N <= 0)%Z) by (simpl; lia).
  destruct (@no_upgrade_unless_newer example_archives number_versions
              example_upgrader "2" world0) as [_ Hgate].
  destruct (Hgate 2%N example_release world0 H1 H2) as [_ Hlatest].
  destruct (Hlatest 2%N H3) as [Havail Hup].
  exact (conj H1 (conj H2 (conj H3 (conj H4 (conj Havail (Hup H4)))))).
Defined.


Lemma IsCheckSumValid_compares_exactly_witness :
  checksum.Checksums example_checksums !! "app_linux_amd64" = Some "abc123"
  /\ @strings_ToLower ascii_strings "abc123" = "abc123"
  /\ (checksum.IsCheckSumValid example_validator "app" example_checksums "abc123" = true
      <-> "abc123" = "abc123")
  /\ (checksum.IsCheckSumValid example_validator "app" example_checksums "abc123" = true
      <-> @strings_ToLower ascii_strings "abc123" = @strings_ToLower ascii_strings "abc123").
Proof.
  assert (H1 : checksum.Checksums example_checksums !! "app_linux_amd64" = Some "abc123")
    by reflexivity.
  assert (H2 : @strings_ToLower ascii_strings "abc123" = "abc123") by reflexivity.
  destruct (@IsCheckSumValid_compares_exactly ascii_strings example_validator "app"
              example_checksums "abc123") as [_ Hpresent].
  destruct (Hpresent "abc123" H1) as [Hexact Hfold].
  exact (conj H1 (conj H2 (conj Hexact (Hfold H2 H2)))).
Defined.

(** The stored checksum and the digest are equal up to case, and the
    validator answers false. *)
Lemma IsCheckSumValid_is_case_sensitive :
  checksum.Checksums example_checksums !! "app_linux_amd64" = Some "abc123"
  /\ @strings_ToLower ascii_strings "abc123" = @strings_ToLower ascii_strings "ABC123"
  /\ checksum.IsCheckSumValid example_validator "app" example_checksums "ABC123" = false.
Proof. by vm_compute. Qed.

(** * Part IV: further facts about the pipeline *)

(** ** What the system calls keep *)

Lemma same_system_refl (w : World) : same_system w w.
Proof. done. Qed.

Lemma same_system_trans (w1 w2 w3 : World) :
  same_system w1 w2 -> same_system w2 w3 -> same_system w1 w3.
Proof. intros (? & ? & ?) (? & ? & ?). repeat split; congruence. Qed.

Lemma same_system_log (e : Event) (w : World) : same_system w (log e w).
Proof. done. Qed.

(** The retry loop of [os.CreateTemp]: a file it returns is new, empty
    and private; when it fails, no file was made. *)
Lemma CreateTemp_loop_outcome (tries : nat) (prefix suffix : string) (w : World) :
  let r := CreateTemp_loop tries prefix suffix w in
  same_system w r.2
  /\ calls r.2 = calls w
  /\ match r.1 with
     | Ok f =>
         files w !! Name f = None
         /\ files r.2 = <[Name f := {| f_bytes := ""; f_mode := mode_0600 |}]> (files w)
     | Err _ => files r.2 = files w
     end.
Proof.
  revert w; induction tries as [|tries IH]; intros w; [done |].
  cbn [CreateTemp_loop]. unfold mbind, M_bind, nextRandom, os_OpenFile_excl.
  cbn [files set_drawn refuse].
  set (name := prefix +:+ _ +:+ suffix).
  destruct (files w !! name) as [fd |] eqn:Hn.
  - simpl. apply (IH (set_drawn (S (drawn w)) w)).
  - destruct (refuse w (SysCreate name)) as [e |].
    + destruct (IsExist _); [| done].
      apply (IH (set_drawn (S (drawn w)) w)).
    + done.
Qed.

Lemma os_CreateTemp_outcome (dir pattern : string) (w : World) :
  let r := os_CreateTemp dir pattern w in
  same_system w r.2
  /\ calls r.2 = calls w ++ [EvCreateTemp dir pattern]
  /\ match r.1 with
     | Ok f =>
         files w !! Name f = None
         /\ files r.2 = <[Name f := {| f_bytes := ""; f_mode := mode_0600 |}]> (files w)
     | Err _ => files r.2 = files w
     end.
Proof.
  unfold os_CreateTemp, mbind, M_bind, emit.
  destruct (prefixAndSuffix pattern) as [[pre suf] | e]; [| done].
  match goal with |- context [CreateTemp_loop ?n] => generalize n end.
  intros n. apply (CreateTemp_loop_outcome n _ suf (log (EvCreateTemp dir pattern) w)).
Qed.

Lemma os_Remove_outcome (name : string) (w : World) :
  let r := os_Remove name w in
  same_system w r.2
  /\ calls r.2 = calls w ++ [EvRemove name]
  /\ (files r.2 = files w \/ files r.2 = delete name (files w))
  /\ (refuse w (SysRemove name) = None -> files r.2 = delete name (files w)).
Proof.
  unfold os_Remove. cbn [refuse log files].
  destruct (refuse w (SysRemove name)) as [e |]; simpl.
  { repeat split; try done; auto. }
  destruct (files w !! name) eqn:Hn; simpl.
  - repeat split; try done; auto.
  - rewrite delete_id by done. repeat split; try done; auto.
Qed.

(** ** The streaming download *)

Section download.
Context `{CryptoLib}.

(** Every way [downloadAsset] can end. *)
Lemma downloadAsset_outcome (d : asset.downloader) (url : string) (w : World) :
  let r := asset.downloadAsset d url w in
  same_system w r.2
  /\ match r.1 with
     | Ok (info, c) =>
         let tmp := asset.DownloadedBinaryFilePath info in
         exists body,
           network w url = Ok {| rd_bytes := body; rd_err := None |}
           /\ files w !! tmp = None
           /\ files r.2 = <[tmp := {| f_bytes := body; f_mode := mode_0755 |}]> (files w)
           /\ asset.Checksum info = sha256_hex body
           /\ c = os_Remove tmp
           /\ calls r.2 = calls w ++ [EvHttpGet url;
                                      EvCreateTemp "" (filepath.Base (asset.executablePath d));
                                      EvCopy tmp; EvChmod tmp mode_0755]
     | Err _ => (forall n, refuse w (SysRemove n) = None) -> files r.2 = files w
     end.
Proof.
  unfold asset.downloadAsset, mbind, M_bind, http_Get.
  destruct (network w url) as [[body berr] | e] eqn:Hnet; [| done].
  pose proof (os_CreateTemp_outcome "" (filepath.Base (asset.executablePath d))
                (log (EvHttpGet url) w)) as Hc.
  cbv zeta in Hc.
  destruct (os_CreateTemp _ _ _) as [[[tmp] | e] w2]; cbn [fst snd] in Hc;
    destruct Hc as ((Ht & Hr & Hn) & Hcalls & Hc).
  2: { split; [by repeat split | by intros _]. }
  destruct Hc as [Hfresh Hfiles]. cbn [Name files log] in *.
  assert (Hrm : forall w3 : World,
             refuse w3 = refuse w ->
             files w3 !! tmp <> None ->
             delete tmp (files w3) = files w ->
             (forall n, refuse w (SysRemove n) = None) ->
             files (os_Remove tmp w3).2 = files w).
  { intros w3 Hr3 _ Hd Hno.
    destruct (os_Remove_outcome tmp w3) as (_ & _ & _ & Hdel).
    rewrite Hdel; [done |]. rewrite Hr3. apply Hno. }
  unfold io_Copy. cbn [Name refuse log rd_bytes rd_err files].
  destruct (refuse w2 (SysWrite tmp)) as [e |].
  { unfold mret, M_ret.
    pose proof (os_Remove_outcome tmp (log (EvCopy tmp) w2)) as (Hs & _).
    pose proof (Hrm (log (EvCopy tmp) w2) Hr) as Hrm'.
    destruct (os_Remove tmp _) as [? w3]. cbn [fst snd] in *.
    split.
    - eapply same_system_trans; [| exact Hs]. by repeat split.
    - intros Hno. apply Hrm'; [| | done]; cbn [files log].
      + rewrite Hfiles, lookup_insert_eq. done.
      + rewrite Hfiles, delete_insert_eq. by apply delete_id. }
  set (w3 := set_files _ (log (EvCopy tmp) w2)).
  assert (Hf3 : files w3 = <[tmp := {| f_bytes := body; f_mode := mode_0600 |}]> (files w)).
  { unfold w3. cbn [files set_files log]. by rewrite Hfiles, alter_insert_eq. }
  destruct berr as [e |].
  { unfold mret, M_ret.
    pose proof (os_Remove_outcome tmp w3) as (Hs & _).
    pose proof (Hrm w3 Hr) as Hrm'.
    destruct (os_Remove tmp w3) as [? w4]. cbn [fst snd] in *.
    split.
    - eapply same_system_trans; [| exact Hs]. by repeat split.
    - intros Hno. apply Hrm'; [| | done].
      + rewrite Hf3, lookup_insert_eq. done.
      + rewrite Hf3, delete_insert_eq. by apply delete_id. }
  unfold os_Chmod. cbn [refuse log files].
  change (refuse w3) with (refuse w2). change (files (log _ w3)) with (files w3).
  destruct (refuse w2 (SysChmod tmp)) as [e |].
  { unfold mret, M_ret.
    pose proof (os_Remove_outcome tmp (log (EvChmod tmp mode_0755) w3)) as (Hs & _).
    pose proof (Hrm (log (EvChmod tmp mode_0755) w3) Hr) as Hrm'.
    destruct (os_Remove tmp _) as [? w4]. cbn [fst snd] in *.
    split.
    - eapply same_system_trans; [| exact Hs]. by repeat split.
    - intros Hno. apply Hrm'; [| | done]; cbn [files log].
      + rewrite Hf3, lookup_insert_eq. done.
      + rewrite Hf3, delete_insert_eq. by apply delete_id. }
  rewrite Hf3, lookup_insert_eq. unfold mret, M_ret. cbn [fst snd].
  split; [by repeat split |].
  cbn [asset.DownloadedBinaryFilePath Name asset.Checksum rd_bytes].
  exists body. repeat split; try done.
  - cbn [files set_files log f_bytes]. by rewrite Hf3, insert_insert_eq.
  - unfold w3. cbn [calls set_files log]. rewrite Hcalls. cbn [calls log].
    by rewrite <- !app_assoc.
Qed.

End download.

Section download_facts.
Context `{StringsLib} `{CryptoLib}.

(** X1.  When [downloadAsset] succeeds, the temporary file is a new
    file that holds exactly the bytes of the response body with mode
    0755, the checksum returned is the digest of those same bytes, the
    body was read to its end, and the cleanup function removes that
    file.  Four calls were made: the request, [os.CreateTemp] with the
    base name of the executable as pattern, the copy and the chmod. *)
Theorem downloadAsset_stores_what_it_hashes (d : asset.downloader) (url : string)
  (w w1 : World) (info : asset.Info) (c : asset.cleanupFn) :
  asset.downloadAsset d url w = (Ok (info, c), w1) ->
  let tmp := asset.DownloadedBinaryFilePath info in
  exists body,
    network w url = Ok {| rd_bytes := body; rd_err := None |}
    /\ files w !! tmp = None
    /\ files w1 = <[tmp := {| f_bytes := body; f_mode := mode_0755 |}]> (files w)
    /\ asset.Checksum info = sha256_hex body
    /\ c = os_Remove tmp
    /\ calls w1 = calls w ++ [EvHttpGet url;
                              EvCreateTemp "" (filepath.Base (asset.executablePath d));
                              EvCopy tmp; EvChmod tmp mode_0755].
Proof.
  intros Hd. pose proof (downloadAsset_outcome d url w) as Ho.
  cbv zeta in Ho. rewrite Hd in Ho. by destruct Ho as [_ Ho].
Qed.

(** X2.  When [downloadAsset] fails, at whatever step, and the system
    refuses no removal, the files are exactly those from before the
    call: a temporary file that was created has been removed again. *)
Theorem failed_download_leaves_no_file (d : asset.downloader) (url : string)
  (w w1 : World) (e : error) :
  asset.downloadAsset d url w = (Err e, w1) ->
  (forall n, refuse w (SysRemove n) = None) ->
  files w1 = files w.
Proof.
  intros Hd Hno. pose proof (downloadAsset_outcome d url w) as Ho.
  cbv zeta in Ho. rewrite Hd in Ho. destruct Ho as [_ Ho]. by apply Ho.
Qed.

(** Every way [DownloadAsset] can end. *)
Lemma DownloadAsset_outcome (d : asset.downloader) (assets : list Asset) (w : World) :
  let target := asset.os d +:+ "_" +:+ asset.arch d in
  let r := asset.DownloadAsset d assets w in
  same_system w r.2
  /\ match r.1 with
     | Ok (info, c) =>
         let tmp := asset.DownloadedBinaryFilePath info in
         exists a body,
           find (assetMatches target) assets = Some a
           /\ network w (BrowserDownloadURL a) = Ok {| rd_bytes := body; rd_err := None |}
           /\ files w !! tmp = None
           /\ files r.2 = <[tmp := {| f_bytes := body; f_mode := mode_0755 |}]> (files w)
           /\ asset.Checksum info = sha256_hex body
           /\ c = Some (os_Remove tmp)
           /\ asset.PlatformSuffix info = target
           /\ asset.ArSuffix info
              = (stripKnownArchiveSuffix (strings_ToLower (BrowserDownloadURL a))).1
     | Err _ => (forall n, refuse w (SysRemove n) = None) -> files r.2 = files w
     end.
Proof.
  intros target. cbv zeta. unfold asset.DownloadAsset. fold target.
  rewrite DownloadAsset_loop_find.
  destruct (find (assetMatches target) assets) as [a |] eqn:Hf; [| done].
  pose proof (downloadAsset_outcome d (BrowserDownloadURL a) w) as Ho. cbv zeta in Ho.
  destruct (asset.downloadAsset d (BrowserDownloadURL a) w) as [[[info c] | e] w1];
    cbn [fst snd] in *; destruct Ho as [Hs Ho]; [| done].
  split; [done |]. cbn [asset.DownloadedBinaryFilePath asset.Checksum
                         asset.PlatformSuffix asset.ArSuffix].
  destruct Ho as (body & Hn & Hfresh & Hfiles & Hsum & -> & _).
  exists a, body. by repeat split.
Qed.

End download_facts.

(** ** The checksum manifest asset *)

Section manifest_asset.
Context `{StringsLib} `{BufioLib}.

Lemma downloadCheckSum_outcome (url : string) (w : World) :
  checksum.downloadCheckSum url w
  = (match network w url with
     | Ok body => checksum.parseManifest (rd_bytes body)
     | Err e => Err e
     end, log (EvHttpGet url) w).
Proof.
  unfold checksum.downloadCheckSum, mbind, M_bind, http_Get.
  by destruct (network w url).
Qed.

(** X3.  [Download] asks for the first asset of the list whose URL, as
    written (not lower-cased), ends with the suffix, with one request,
    and answers what the parse of that body gives; a failure there is
    final, later assets are not tried.  With no such asset it fails with
    [ErrNoCheckSumAsset] and makes no request.  It never changes a
    file. *)
Theorem Download_takes_first_manifest_asset (c : checksum.checksumDownloader)
  (assets : list Asset) (w : World) :
  checksum.Download c assets w
  = match find (isManifestAsset c) assets with
    | None => (Err checksum.ErrNoCheckSumAsset, w)
    | Some a =>
        (match network w (BrowserDownloadURL a) with
         | Ok body => checksum.parseManifest (rd_bytes body)
         | Err e => Err e
         end, log (EvHttpGet (BrowserDownloadURL a)) w)
    end
  /\ files (checksum.Download c assets w).2 = files w.
Proof.
  assert (Heq : checksum.Download c assets w
    = match find (isManifestAsset c) assets with
      | None => (Err checksum.ErrNoCheckSumAsset, w)
      | Some a =>
          (match network w (BrowserDownloadURL a) with
           | Ok body => checksum.parseManifest (rd_bytes body)
           | Err e => Err e
           end, log (EvHttpGet (BrowserDownloadURL a)) w)
      end).
  { induction assets as [|a rest IH]; [done |].
    cbn [checksum.Download find]. unfold isManifestAsset at 1.
    destruct (strings.HasSuffix _ _); [apply downloadCheckSum_outcome | apply IH]. }
  split; [done |]. rewrite Heq. by destruct (find _ assets).
Qed.

(** What [Download] answers depends on the network only. *)
Lemma Download_result (c : checksum.checksumDownloader) (assets : list Asset)
  (w w' : World) :
  network w' = network w ->
  (checksum.Download c assets w').1 = (checksum.Download c assets w).1.
Proof.
  intros Hn. induction assets as [|a rest IH]; [done |].
  cbn [checksum.Download]. destruct (strings.HasSuffix _ _); [| apply IH].
  rewrite !downloadCheckSum_outcome. cbn [fst]. by rewrite Hn.
Qed.

Lemma Download_system (c : checksum.checksumDownloader) (assets : list Asset)
  (w : World) :
  same_system w (checksum.Download c assets w).2
  /\ files (checksum.Download c assets w).2 = files w.
Proof.
  induction assets as [|a rest IH]; [done |].
  cbn [checksum.Download]. destruct (strings.HasSuffix _ _); [| apply IH].
  by rewrite downloadCheckSum_outcome.
Qed.

End manifest_asset.

(** ** What [tryUnArchive] lets through *)

Section unarchive.
Context `{ArchiveLib}.

Lemma unTarGz_fails (prefix : string) (r : Reader) (w : World) :
  is_Ok (upgrade.unTarGz prefix r w).1 = false
  /\ files (upgrade.unTarGz prefix r w).2 = files w
  /\ same_system w (upgrade.unTarGz prefix r w).2.
Proof.
  unfold upgrade.unTarGz, mbind, M_bind, emit.
  destruct (gzip_NewReader r) as [gzr | e]; [| done].
  by rewrite unTar_fails.
Qed.

Lemma unZip_loop_system (prefix : string) (zfiles : list ZipFile) (w : World) :
  same_system w (upgrade.unZip_loop prefix zfiles w).2.
Proof.
  induction zfiles as [|f rest IH]; [done |]. cbn [upgrade.unZip_loop].
  destruct (negb _); [apply IH |].
  destruct (zip_Open f) as [rc | e]; [| done].
  unfold mbind, M_bind. by rewrite os_CreateTemp_tempPattern.
Qed.

(** Every way [tryUnArchive] can end. *)
Lemma tryUnArchive_outcome (prefix arPath : string) (w : World) :
  let r := upgrade.tryUnArchive prefix arPath w in
  files r.2 = files w
  /\ same_system w r.2
  /\ forall t, r.1 = Ok t ->
       t = arPath /\ filepath.Ext arPath = "" /\ is_Some (files w !! arPath)
       /\ calls r.2 = calls w ++ [EvOpen arPath].
Proof.
  cbv zeta. unfold upgrade.tryUnArchive, mbind, M_bind, os_Open.
  cbn [refuse log files].
  destruct (refuse w (SysOpen arPath)) as [e |]; [done |].
  destruct (files w !! arPath) as [fd |] eqn:Hf; [| done].
  set (f := {| rd_bytes := f_bytes fd; rd_err := None |}).
  set (w1 := log (EvOpen arPath) w).
  destruct (String.eqb _ ".tar.gz").
  { destruct (unTarGz_fails prefix f w1) as (Hr & Hfs & Hs).
    split; [done | split; [done |]]. intros t Ht; rewrite Ht in Hr; discriminate. }
  destruct (String.eqb _ ".zip").
  { destruct (unZip_fails prefix f w1) as (Hr & Hfs).
    assert (Hs : same_system w (upgrade.unZip prefix f w1).2).
    { unfold upgrade.unZip, mbind, M_bind, emit.
      destruct (zip_NewReader f 0) as [zs | e]; [| done].
      apply (unZip_loop_system prefix zs (log EvZipNewReader w1)). }
    split; [done | split; [done |]]. intros t Ht; rewrite Ht in Hr; discriminate. }
  destruct (String.eqb _ ".tar").
  { rewrite unTar_fails. by repeat split. }
  destruct (String.eqb _ ".gz").
  { destruct (unGz_fails prefix f w1) as (Hr & Hfs & _).
    assert (Hs : same_system w (upgrade.unGz prefix f w1).2).
    { unfold upgrade.unGz, mbind, M_bind, emit.
      destruct (gzip_NewReader f) as [gzr | e]; [| done].
      by rewrite os_CreateTemp_tempPattern. }
    split; [done | split; [done |]]. intros t Ht; rewrite Ht in Hr; discriminate. }
  destruct (String.eqb_spec (filepath.Ext arPath) "") as [He | _]; [| by repeat split].
  split; [done | split; [done |]]. by intros t [= <-].
Qed.

(** X4.  [tryUnArchive] returns a path only for a file that exists and
    whose path has no extension, and the path it returns is the one it
    was given; the only call made is the [os.Open].  For every other
    path it returns an error.  In no case does it change a file, and
    [unTarGz], like the other three helpers, never succeeds. *)
Theorem tryUnArchive_passes_only_plain_files (prefix arPath t : string) (w : World) :
  (upgrade.tryUnArchive prefix arPath w).1 = Ok t ->
  t = arPath
  /\ filepath.Ext arPath = ""
  /\ is_Some (files w !! arPath)
  /\ calls (upgrade.tryUnArchive prefix arPath w).2 = calls w ++ [EvOpen arPath]
  /\ files (upgrade.tryUnArchive prefix arPath w).2 = files w
  /\ (forall prefix' arPath' w', files (upgrade.tryUnArchive prefix' arPath' w').2 = files w')
  /\ (forall prefix' r w', is_Ok (upgrade.unTarGz prefix' r w').1 = false).
Proof.
  intros Ht. destruct (tryUnArchive_outcome prefix arPath w) as (Hf & _ & Ho).
  destruct (Ho t Ht) as (-> & He & Hs & Hc).
  repeat split; try done.
  - intros prefix' arPath' w'. apply tryUnArchive_outcome.
  - intros prefix' r w'. apply unTarGz_fails.
Qed.

End unarchive.

(** ** What a run of [Upgrade] leaves behind *)

Lemma replaceBinary_files (tmpFilePath currentBinaryPath : string) (w : World) :
  let r := upgrade.replaceBinary tmpFilePath currentBinaryPath w in
  same_system w r.2
  /\ match r.1 with
     | Some _ => files r.2 = files w
     | None =>
         exists fd, files w !! tmpFilePath = Some fd
                    /\ files r.2 = <[currentBinaryPath := fd]> (delete tmpFilePath (files w))
     end.
Proof.
  unfold upgrade.replaceBinary, mbind, M_bind, os_Rename. cbn [refuse log files].
  destruct (refuse w _); [done |].
  destruct (files w !! tmpFilePath) as [fd |]; [| done].
  split; [done |]. by exists fd.
Qed.

Section upgrade_outcome.
Context `{StringsLib} `{BufioLib} `{CryptoLib} `{RuntimeLib} `{ReleaseLib}
        `{ArchiveLib} `{VersionLib}.

(** Every way the second half of [Upgrade] can end, for the checksum
    downloader and validator of this package. *)
Lemma install_outcome (u : upgrade.upgrader) (rel : ReleaseInfo) (info : asset.Info)
  (cd : checksum.checksumDownloader) (v : checksum.validator) (w : World) :
  upgrade.checksumDownloader u = checksum.Download cd ->
  upgrade.checksumValidator u
  = (fun binary sums digest => mret (checksum.IsCheckSumValid v binary sums digest)) ->
  let tmp := asset.DownloadedBinaryFilePath info in
  let exe := upgrade.executablePath u in
  let r := upgrade.install u rel info w in
  same_system w r.2
  /\ ((r.1 <> None /\ (files r.2 = files w \/ files r.2 = delete tmp (files w)))
      \/ (r.1 = None
          /\ exists sums fd,
               (checksum.Download cd (Assets rel) w).1 = Ok sums
               /\ checksum.Checksums sums !! validatorKey v (filepath.Base exe)
                  = Some (asset.Checksum info)
               /\ files w !! tmp = Some fd
               /\ filepath.Ext tmp = ""
               /\ (files r.2 = <[exe := fd]> (delete tmp (files w))
                   \/ files r.2 = delete tmp (<[exe := fd]> (delete tmp (files w)))))).
Proof.
  intros Hcd Hv tmp exe. cbv zeta.
  unfold upgrade.install. rewrite Hcd, Hv. fold exe tmp.
  unfold mbind, M_bind, mret, M_ret.
  destruct (Download_system cd (Assets rel) w) as [Hs3 Hf3].
  destruct (checksum.Download cd (Assets rel) w) as [[sums | e] w3] eqn:Hd;
    cbn [fst snd] in *.
  2: { split; [done |]. left. split; [done | by left]. }
  destruct (checksum.IsCheckSumValid v (filepath.Base exe) sums (asset.Checksum info))
    eqn:Hvalid; cbn [negb]; cbv beta iota.
  2: { split; [done |]. left. split; [done | by left]. }
  assert (Hkey : checksum.Checksums sums !! validatorKey v (filepath.Base exe)
                 = Some (asset.Checksum info)).
  { unfold checksum.IsCheckSumValid in Hvalid.
    fold (validatorKey v (filepath.Base exe)) in Hvalid.
    destruct (checksum.Checksums sums !! _) as [x |]; [| done].
    apply String.eqb_eq in Hvalid. by subst. }
  destruct (tryUnArchive_outcome (filepath.Base exe) tmp w3) as (Hf4 & Hs4 & Ht).
  destruct (upgrade.tryUnArchive (filepath.Base exe) tmp w3) as [[t | e] w4];
    cbn [fst snd] in *.
  2: { split; [by eapply same_system_trans |]. left. split; [done |]. left. congruence. }
  destruct (Ht t eq_refl) as (-> & Hext & [fd Hfd] & _). clear Ht.
  rewrite Hf3 in Hfd.
  destruct (replaceBinary_files tmp exe w4) as [Hs5 Hf5].
  destruct (os_Remove_outcome tmp (upgrade.replaceBinary tmp exe w4).2)
    as (Hs6 & _ & Hf6 & _).
  destruct (upgrade.replaceBinary tmp exe w4) as [r5 w5]; cbn [fst snd] in *.
  destruct (os_Remove tmp w5) as [? w6]; cbn [fst snd] in *.
  assert (Hs : same_system w w6).
  { eapply same_system_trans; [exact Hs3 |].
    eapply same_system_trans; [exact Hs4 |].
    eapply same_system_trans; [exact Hs5 | exact Hs6]. }
  split; [by destruct r5 |].
  destruct r5 as [e |]; cbn [fst snd].
  - left. split; [done |].
    destruct Hf6 as [-> | ->]; rewrite Hf5, Hf4, Hf3; auto.
  - right. split; [done |]. exists sums, fd.
    destruct Hf5 as (fd' & Hfd' & Hf5). rewrite Hf4, Hf3 in Hfd', Hf5.
    assert (fd' = fd) as -> by congruence.
    repeat split; try done.
    destruct Hf6 as [-> | ->]; rewrite Hf5; auto.
Qed.

(** X5.  A run of [Upgrade] with the components [NewUpgrader] installs,
    on a machine where the executable exists, where the release client
    writes no file and where no removal is refused.  Afterwards either
    every file is as before (nothing to do, or a failure at any step:
    no temporary file is left), or [Upgrade] returned nil and exactly one
    file changed: the executable now holds, with mode 0755, the bytes of
    the body of the first asset matching [GOOS_GOARCH], read to the end,
    and the digest of these bytes is the manifest's entry for
    [<base name>_<GOOS>_<GOARCH>]. *)
Theorem Upgrade_installs_verified_bytes (owner repo executablePath currentVersion : string)
  (w : World) :
  let g := release_NewReleaseGetter repo owner w in
  let r := upgrade.Upgrade (upgrade.NewUpgrader owner repo executablePath [])
             currentVersion w in
  files g.2 = files w ->
  is_Some (files w !! executablePath) ->
  (forall n, refuse g.2 (SysRemove n) = None) ->
  files r.2 = files w
  \/ (r.1 = None
      /\ exists rel a body sums,
           g.1 = Ok rel
           /\ find (assetMatches (GOOS +:+ "_" +:+ GOARCH)) (Assets rel) = Some a
           /\ network g.2 (BrowserDownloadURL a)
              = Ok {| rd_bytes := body; rd_err := None |}
           /\ (checksum.Download {| checksum.assetSuffix := "checksums.txt" |}
                 (Assets rel) g.2).1 = Ok sums
           /\ checksum.Checksums sums
                !! (filepath.Base executablePath +:+ "_" +:+ GOOS +:+ "_" +:+ GOARCH)
              = Some (sha256_hex body)
           /\ files r.2
              = <[executablePath := {| f_bytes := body; f_mode := mode_0755 |}]> (files w)).
Proof.
  cbv zeta. intros Hrel Hexe Hrm.
  set (u := upgrade.NewUpgrader owner repo executablePath []).
  pose (Q := fun r : option error * World =>
     files r.2 = files w
     \/ (r.1 = None
         /\ exists rel a body sums,
              (release_NewReleaseGetter repo owner w).1 = Ok rel
              /\ find (assetMatches (GOOS +:+ "_" +:+ GOARCH)) (Assets rel) = Some a
              /\ network (release_NewReleaseGetter repo owner w).2 (BrowserDownloadURL a)
                 = Ok {| rd_bytes := body; rd_err := None |}
              /\ (checksum.Download {| checksum.assetSuffix := "checksums.txt" |}
                    (Assets rel) (release_NewReleaseGetter repo owner w).2).1 = Ok sums
              /\ checksum.Checksums sums
                   !! (filepath.Base executablePath +:+ "_" +:+ GOOS +:+ "_" +:+ GOARCH)
                 = Some (sha256_hex body)
              /\ files r.2
                 = <[executablePath := {| f_bytes := body; f_mode := mode_0755 |}]>
                     (files w))).
  change (Q (upgrade.Upgrade u currentVersion w)).
  unfold upgrade.Upgrade, mbind at 1 2, M_bind at 1 2.
  change (upgrade.releaseGetter u) with (release_NewReleaseGetter repo owner).
  change (upgrade.assetDownloader u)
    with (asset.DownloadAsset {| asset.os := GOOS; asset.arch := GOARCH;
                                 asset.executablePath := executablePath |}).
  destruct (NewVersion currentVersion) as [curr | e0]; [| by left].
  destruct (release_NewReleaseGetter repo owner w) as [[rel | e0] w1] eqn:Hg;
    cbn [fst snd] in *; [| by left].
  destruct (NewVersion (TagName rel)) as [latest | e0]; [| by left].
  destruct (LessThanOrEqual latest curr); [by left |].
  set (d := {| asset.os := GOOS; asset.arch := GOARCH;
               asset.executablePath := executablePath |}).
  destruct (DownloadAsset_outcome d (Assets rel) w1) as [Hs2 Ho2].
  destruct (asset.DownloadAsset d (Assets rel) w1) as [[[info c] | e0] w2];
    cbn [fst snd] in *.
  2: { left. unfold mret, M_ret. cbn [snd]. rewrite Ho2 by done. done. }
  destruct Ho2 as (a & body & Hfind & Hnet & Hfresh & Hf2 & Hsum & -> & _ & _).
  set (tmp := asset.DownloadedBinaryFilePath info) in *.
  assert (Hne : tmp <> executablePath).
  { intros Heq. rewrite Heq, Hrel in Hfresh. rewrite Hfresh in Hexe. by destruct Hexe. }
  destruct (install_outcome u rel info {| checksum.assetSuffix := "checksums.txt" |}
              {| checksum.os := GOOS; checksum.arch := GOARCH |} w2 eq_refl eq_refl)
    as [Hs3 Ho3].
  fold tmp in Ho3. change (upgrade.executablePath u) with executablePath in Ho3.
  unfold mbind, M_bind, mret, M_ret.
  destruct (upgrade.install u rel info w2) as [ret w3]; cbn [fst snd] in *.
  destruct (os_Remove_outcome tmp w3) as (_ & _ & _ & Hf4).
  destruct (os_Remove tmp w3) as [? w4]; cbn [fst snd] in *.
  assert (Hno : refuse w3 (SysRemove tmp) = None).
  { destruct Hs2 as (_ & Hr2 & _), Hs3 as (_ & Hr3 & _). rewrite Hr3, Hr2. apply Hrm. }
  specialize (Hf4 Hno). unfold Q. cbn [fst snd]. rewrite Hf4. clear Hf4 Hno.
  assert (Hm : delete tmp (files w2) = files w).
  { rewrite Hf2, delete_insert_eq, Hrel. apply delete_id. by rewrite <- Hrel. }
  destruct Ho3 as [[Hret [-> | ->]] | (-> & sums & fd & Hd & Hkey & Hfd & Hext & Hf3)].
  - left. done.
  - left. rewrite Hm. apply delete_id. rewrite <- Hrel. done.
  - right. split; [done |]. exists rel, a, body, sums.
    rewrite Hf2, lookup_insert_eq in Hfd. injection Hfd as <-.
    rewrite Hm in Hf3.
    assert (Hfin : delete tmp (files w3)
                   = <[executablePath := {| f_bytes := body; f_mode := mode_0755 |}]>
                       (files w)).
    { assert (Hd1 : delete tmp
                      (<[executablePath := {| f_bytes := body; f_mode := mode_0755 |}]>
                         (files w))
                    = <[executablePath := {| f_bytes := body; f_mode := mode_0755 |}]>
                        (files w)).
      { apply delete_id. rewrite lookup_insert_ne by done. by rewrite <- Hrel. }
      destruct Hf3 as [-> | ->]; by rewrite ?Hd1. }
    repeat split; try done.
    + rewrite <- (Download_result _ (Assets rel) w1 w2); [done |]. apply Hs2.
    + rewrite <- Hsum. exact Hkey.
Qed.

End upgrade_outcome.

(** ** Looking a checksum up in the parsed manifest *)

Section manifest_lookup.
Context `{StringsLib} `{BufioLib}.

Lemma parseManifest_manifestOf (body : string) :
  checksum.parseManifest body = manifestOf (bufio_ScanLines body).
Proof.
  unfold checksum.parseManifest, manifestOf.
  rewrite scanLines_fold, fold_lines_list_to_map.
  destruct (forallb twoFields (bufio_ScanLines body)); [| done]. simpl.
  rewrite (right_id_L ∅ (∪)).
  destruct (bufio_ScanLines body) as [|line rest]; [done |].
  pose proof (manifest_nonempty line rest) as Hn.
  by destruct (Nat.eqb_spec (size (list_to_map (rev (map lineEntry (line :: rest)))
                                   : gmap string string)) 0).
Qed.

Lemma keyNotIn_fst (key : string) (lines : list string) :
  keyNotIn key lines = true -> key ∉ (rev (map lineEntry lines)).*1.
Proof.
  unfold keyNotIn. rewrite forallb_forall. intros Hk Hin.
  apply list_elem_of_fmap in Hin as ([k v] & -> & Hin).
  apply list_elem_of_In, in_rev, in_map_iff in Hin as (l & He & Hl).
  specialize (Hk l Hl). rewrite He in Hk. simpl in Hk.
  by rewrite String.eqb_refl in Hk.
Qed.

(** X6.  In a manifest all of whose lines have two fields, the entry of
    a key is the lower-cased checksum of the last line with that key:
    earlier lines with the same key are overwritten.  [IsCheckSumValid]
    then accepts a digest for a binary whose lookup key is that key
    exactly when the digest is that lower-cased checksum. *)
Theorem manifest_last_line_wins (body : string) (pre post : list string)
  (line sum filename : string) :
  bufio_ScanLines body = pre ++ line :: post ->
  forallb twoFields (pre ++ line :: post) = true ->
  lineFields line = [sum; filename] ->
  keyNotIn (checksum.manifestKey filename) post = true ->
  exists info,
    checksum.parseManifest body = Ok info
    /\ checksum.Checksums info !! checksum.manifestKey filename
       = Some (strings_ToLower sum)
    /\ forall v binary digest,
         validatorKey v binary = checksum.manifestKey filename ->
         checksum.IsCheckSumValid v binary info digest
         = String.eqb (strings_ToLower sum) digest.
Proof.
  intros Hlines Hall Hline Hpost.
  rewrite parseManifest_manifestOf, Hlines. unfold manifestOf. rewrite Hall. cbn [negb].
  exists {| checksum.Checksums :=
              list_to_map (rev (map lineEntry (pre ++ line :: post))) |}.
  split; [by destruct pre |].
  assert (Hlook : (list_to_map (rev (map lineEntry (pre ++ line :: post)))
                   : gmap string string) !! checksum.manifestKey filename
                  = Some (strings_ToLower sum)).
  { rewrite map_app, rev_app_distr. cbn [map rev].
    rewrite <- !app_assoc. rewrite list_to_map_app.
    rewrite lookup_union_r by (by apply not_elem_of_list_to_map_1, keyNotIn_fst).
    cbn [app]. unfold lineEntry at 1. rewrite Hline.
    rewrite list_to_map_cons. apply lookup_insert_eq. }
  split; [exact Hlook |].
  intros v binary digest Hkey. unfold checksum.IsCheckSumValid.
  fold (validatorKey v binary). rewrite Hkey. cbn [checksum.Checksums].
  by rewrite Hlook.
Qed.

End manifest_lookup.

(** ** The two operations of the interface *)

Section operations.
Context `{ArchiveLib} `{VersionLib}.

(** X7.  [Upgrade] and [IsNewVersionAvailable] agree.  When the query
    answers false, [Upgrade] returns nil in the same world, having done
    no more than the release fetch.  When the query fails, [Upgrade]
    fails in the same world with the same error, or, for a version that
    does not parse, with the parse error that the error of the query
    wraps.  When the query answers true, [Upgrade] goes on to the asset
    downloader with the assets of that release, and an error of the
    downloader is returned as it is. *)
Theorem Upgrade_agrees_with_IsNewVersionAvailable (u : upgrade.upgrader)
  (currentVersion : string) (w w1 : World) (answer : result bool) :
  upgrade.IsNewVersionAvailable u currentVersion w = (answer, w1) ->
  match answer with
  | Ok false => upgrade.Upgrade u currentVersion w = (None, w1)
  | Err e =>
      exists e', upgrade.Upgrade u currentVersion w = (Some e', w1)
                 /\ (e' = e \/ Unwrap e = Some e')
  | Ok true =>
      exists rel,
        upgrade.releaseGetter u w = (Ok rel, w1)
        /\ forall e w2,
             upgrade.assetDownloader u (Assets rel) w1 = (Err e, w2) ->
             upgrade.Upgrade u currentVersion w = (Some e, w2)
  end.
Proof.
  unfold upgrade.IsNewVersionAvailable, upgrade.Upgrade, mbind, M_bind, mret, M_ret.
  destruct (NewVersion currentVersion) as [curr | e0].
  2: { intros [= <- <-]. exists e0. split; [done | by right]. }
  destruct (upgrade.releaseGetter u w) as [[rel | e0] w2].
  2: { intros [= <- <-]. exists e0. split; [done | by left]. }
  destruct (NewVersion (TagName rel)) as [latest | e0].
  2: { intros [= <- <-]. exists e0. split; [done | by right]. }
  intros [= <- <-]. unfold GreaterThan, LessThanOrEqual.
  destruct (Z.ltb_spec 0 (Compare latest curr)) as [Hlt | Hle].
  - rewrite (proj2 (Z.leb_gt _ _)) by lia.
    exists rel. split; [done |]. by intros e w3 ->.
  - by rewrite (proj2 (Z.leb_le _ _)) by lia.
Qed.

End operations.

(** ** What the returned [Info] says about the asset *)

(** The inner loop of [DownloadAsset] takes the string apart: what is
    left followed by the suffix found is the string, and the suffix is
    empty or one of the four. *)
Lemma stripArchive_splits (u : string) :
  u = (asset.stripArchive u archiveSuffixes).2 +:+ (asset.stripArchive u archiveSuffixes).1
  /\ In (asset.stripArchive u archiveSuffixes).1 ("" :: archiveSuffixes).
Proof.
  rewrite stripArchive_spec. unfold stripKnownArchiveSuffix.
  destruct (find (strings.HasSuffix u) archiveSuffixes) as [s |] eqn:Hf; cbn [fst snd].
  - apply find_some in Hf as [Hin Hs]. split; [by apply HasSuffix_split | by right].
  - split; [by rewrite sapp_nil_r | by left].
Qed.

Section info.
Context `{StringsLib} `{CryptoLib}.

(** X8.  The [Info] that [DownloadAsset] returns describes an asset of
    the list: the lower-cased URL of that asset is some stem, followed by
    [PlatformSuffix], followed by [ArSuffix]; [PlatformSuffix] is
    [<os>_<arch>] and [ArSuffix] is empty or one of [.tar.gz], [.tar],
    [.zip], [.gz]; and a cleanup function is always returned. *)
Theorem DownloadAsset_info_describes_asset (d : asset.downloader)
  (assets : list Asset) (w w1 : World) (info : asset.Info)
  (c : option asset.cleanupFn) :
  asset.DownloadAsset d assets w = (Ok (info, c), w1) ->
  exists a stem,
    In a assets
    /\ strings_ToLower (BrowserDownloadURL a)
       = stem +:+ asset.PlatformSuffix info +:+ asset.ArSuffix info
    /\ asset.PlatformSuffix info = asset.os d +:+ "_" +:+ asset.arch d
    /\ In (asset.ArSuffix info) ("" :: archiveSuffixes)
    /\ c = Some (os_Remove (asset.DownloadedBinaryFilePath info)).
Proof.
  intros Hd. pose proof (DownloadAsset_outcome d assets w) as Ho.
  cbv zeta in Ho. rewrite Hd in Ho. cbn [fst snd] in Ho.
  destruct Ho as (_ & a & body & Hf & _ & _ & _ & _ & -> & -> & ->).
  apply find_some in Hf as [Hin Hm]. unfold assetMatches in Hm.
  apply HasSuffix_split in Hm.
  set (u := strings_ToLower (BrowserDownloadURL a)) in *.
  destruct (stripArchive_splits u) as [Hu Har]. rewrite stripArchive_spec in Hu, Har.
  exists a, (substring 0 (slen (stripKnownArchiveSuffix u).2
                               - slen (asset.os d +:+ "_" +:+ asset.arch d))
                  (stripKnownArchiveSuffix u).2).
  split; [done |].
  split; [| split; [done | split; [exact Har | done]]].
  cbn [asset.PlatformSuffix asset.ArSuffix].
  rewrite <- sapp_assoc, <- Hm. exact Hu.
Qed.

End info.

(** ** Success means verified *)

Section verified.
Context `{ArchiveLib} `{VersionLib}.

(** X9.  Whatever the four collaborators are, [Upgrade] returns nil in
    two cases only.  Either the latest version is not greater than the
    current one, and then nothing was done after the release fetch.  Or
    the downloader returned a file, the checksum downloader returned a
    manifest, the validator accepted the digest of the download against
    that manifest for the base name of the executable, the path of the
    download has no extension, and the rename of that path onto the
    executable succeeded. *)
Theorem Upgrade_nil_means_verified (u : upgrade.upgrader) (currentVersion : string)
  (w : World) :
  (upgrade.Upgrade u currentVersion w).1 = None ->
  exists curr rel w1 latest,
    NewVersion currentVersion = Ok curr
    /\ upgrade.releaseGetter u w = (Ok rel, w1)
    /\ NewVersion (TagName rel) = Ok latest
    /\ (((Compare latest curr <= 0)%Z /\ (upgrade.Upgrade u currentVersion w).2 = w1)
        \/ ((0 < Compare latest curr)%Z
            /\ exists info cleanup w2 sums w3 w4,
                 let tmp := asset.DownloadedBinaryFilePath info in
                 upgrade.assetDownloader u (Assets rel) w1 = (Ok (info, cleanup), w2)
                 /\ upgrade.checksumDownloader u (Assets rel) w2 = (Ok sums, w3)
                 /\ upgrade.checksumValidator u (filepath.Base (upgrade.executablePath u))
                      sums (asset.Checksum info) w3 = (true, w4)
                 /\ filepath.Ext tmp = ""
                 /\ is_Some (files w4 !! tmp)
                 /\ (os_Rename tmp (upgrade.executablePath u) (log (EvOpen tmp) w4)).1
                    = None)).
Proof.
  intros Hnil. destruct (upgrade.Upgrade u currentVersion w) as [res wf] eqn:HU.
  cbn [fst snd] in *. subst res. revert HU.
  unfold upgrade.Upgrade, mbind at 1 2, M_bind at 1 2.
  destruct (NewVersion currentVersion) as [curr | e0] eqn:Hc; [| done].
  destruct (upgrade.releaseGetter u w) as [[rel | e0] w1] eqn:Hg; [| done].
  destruct (NewVersion (TagName rel)) as [latest | e0] eqn:Hl; [| done].
  unfold LessThanOrEqual.
  destruct (Z.leb_spec (Compare latest curr) 0) as [Hle | Hgt].
  { intros [= <-]. exists curr, rel, w1, latest.
    split; [done | split; [done | split; [done |]]]. by left. }
  destruct (upgrade.assetDownloader u (Assets rel) w1) as [[[info cl] | e0] w2] eqn:Hd;
    [| done].
  intros Hnil. exists curr, rel, w1, latest.
  split; [done | split; [done | split; [done |]]]. right.
  split; [done |]. revert Hnil.
  assert (Hcl : forall (e0 : error) (w' : World),
             (let (_, w8) := (match cl with
                              | Some cleanup0 => cleanup0
                              | None => mret None
                              end : M (option error)) w' in
              ((Some e0, w8) : option error * World)) <> (None, wf)).
  { intros e0 w'. destruct cl as [cl |]; [by destruct (cl w') | done]. }
  unfold upgrade.install, mbind, M_bind.
  destruct (upgrade.checksumDownloader u (Assets rel) w2) as [[sums | e0] w3] eqn:Hs.
  2: { intros Hx. by apply Hcl in Hx. }
  destruct (upgrade.checksumValidator u _ sums _ w3) as [[|] w4] eqn:Hv; cbn [negb].
  2: { intros Hx. by apply Hcl in Hx. }
  set (tmp := asset.DownloadedBinaryFilePath info).
  set (exe := upgrade.executablePath u) in *.
  destruct (tryUnArchive_outcome (filepath.Base exe) tmp w4) as (_ & _ & Ht).
  pose proof (tryUnArchive_no_extension (filepath.Base exe) tmp w4) as Hne.
  destruct (upgrade.tryUnArchive (filepath.Base exe) tmp w4) as [[t | e0] w5];
    cbn [fst snd] in *.
  2: { intros Hx. by apply Hcl in Hx. }
  destruct (Ht t eq_refl) as (-> & Hext & Hsome & _).
  specialize (Hne Hext). injection Hne as _ ->.
  unfold upgrade.replaceBinary, mbind, M_bind.
  destruct (os_Rename tmp exe (log (EvOpen tmp) w4)) as [[e0 |] w6] eqn:Hr.
  { unfold mret at 1, M_ret at 1. destruct (os_Remove tmp w6) as [? w7].
    intros Hx. by apply Hcl in Hx. }
  intros _. exists info, cl, w2, sums, w3, w4. cbv zeta. split_and!; try done.
  fold tmp. by rewrite Hr.
Qed.

End verified.

(** ** Where the entries of the manifest come from *)

Section manifest_entries.
Context `{StringsLib} `{BufioLib}.


End manifest_entries.

(** ** Worked instances of the facts of Part IV *)

Lemma downloadAsset_stores_what_it_hashes_witness :
  @asset.downloadAsset toy_digest example_downloader example_url world0
  = (Ok (example_info, example_cleanup), world_downloaded)
  /\ exists body,
       network world0 example_url = Ok {| rd_bytes := body; rd_err := None |}
       /\ files world0 !! "/tmp/app7" = None
       /\ files world_downloaded
          = <["/tmp/app7" := {| f_bytes := body; f_mode := mode_0755 |}]> (files world0)
       /\ asset.Checksum example_info = @sha256_hex toy_digest body
       /\ example_cleanup = os_Remove "/tmp/app7"
       /\ calls world_downloaded
          = calls world0 ++ [EvHttpGet example_url; EvCreateTemp "" "app";
                             EvCopy "/tmp/app7"; EvChmod "/tmp/app7" mode_0755].
Proof.
  assert (Hd : @asset.downloadAsset toy_digest example_downloader example_url world0
               = (Ok (example_info, example_cleanup), world_downloaded))
    by (vm_compute; reflexivity).
  split; [exact Hd |].
  exact (@downloadAsset_stores_what_it_hashes toy_digest example_downloader example_url
           world0 world_downloaded example_info example_cleanup Hd).
Defined.

Lemma failed_download_leaves_no_file_witness :
  @asset.downloadAsset toy_digest example_downloader example_url world_cut_short
  = (Err (errors_New "unexpected EOF"), world_after_cut)
  /\ (forall n, refuse world_cut_short (SysRemove n) = None)
  /\ files world_after_cut = files world_cut_short.
Proof.
  assert (Hd : @asset.downloadAsset toy_digest example_downloader example_url
                 world_cut_short
               = (Err (errors_New "unexpected EOF"), world_after_cut))
    by (vm_compute; reflexivity).
  assert (Hno : forall n, refuse world_cut_short (SysRemove n) = None)
    by (intros n; reflexivity).
  split; [exact Hd | split; [exact Hno |]].
  exact (@failed_download_leaves_no_file toy_digest example_downloader example_url
           world_cut_short world_after_cut (errors_New "unexpected EOF") Hd Hno).
Defined.

Lemma tryUnArchive_passes_only_plain_files_witness :
  (@upgrade.tryUnArchive example_archives "app" "/tmp/app7" world_downloaded).1
  = Ok "/tmp/app7"
  /\ filepath.Ext "/tmp/app7" = ""
  /\ is_Some (files world_downloaded !! "/tmp/app7")
  /\ files (@upgrade.tryUnArchive example_archives "app" "/tmp/app7" world_downloaded).2
     = files world_downloaded.
Proof.
  assert (Ht : (@upgrade.tryUnArchive example_archives "app" "/tmp/app7"
                  world_downloaded).1 = Ok "/tmp/app7") by (vm_compute; reflexivity).
  destruct (@tryUnArchive_passes_only_plain_files example_archives "app" "/tmp/app7"
              "/tmp/app7" world_downloaded Ht) as (_ & He & Hs & _ & Hf & _).
  exact (conj Ht (conj He (conj Hs Hf))).
Defined.

Lemma Upgrade_installs_verified_bytes_witness :
  let g := @release_NewReleaseGetter example_releases "app" "apoxy-dev" world0 in
  let r := @upgrade.Upgrade example_archives number_versions example_upgrader "1" world0 in
  files g.2 = files world0
  /\ is_Some (files world0 !! "/usr/local/bin/app")
  /\ (forall n, refuse g.2 (SysRemove n) = None)
  /\ (files r.2 = files world0
      \/ (r.1 = None
          /\ exists rel a body sums,
               g.1 = Ok rel
               /\ find (@assetMatches ascii_strings "linux_amd64") (Assets rel) = Some a
               /\ network g.2 (BrowserDownloadURL a)
                  = Ok {| rd_bytes := body; rd_err := None |}
               /\ (@checksum.Download ascii_strings short_lines
                     {| checksum.assetSuffix := "checksums.txt" |} (Assets rel) g.2).1
                  = Ok sums
               /\ checksum.Checksums sums !! "app_linux_amd64"
                  = Some (@sha256_hex toy_digest body)
               /\ files r.2
                  = <["/usr/local/bin/app" := {| f_bytes := body; f_mode := mode_0755 |}]>
                      (files world0))).
Proof.
  intros g r.
  assert (H1 : files g.2 = files world0) by reflexivity.
  assert (H2 : is_Some (files world0 !! "/usr/local/bin/app")) by (eexists; reflexivity).
  assert (H3 : forall n, refuse g.2 (SysRemove n) = None) by (intros n; reflexivity).
  split; [exact H1 | split; [exact H2 | split; [exact H3 |]]].
  exact (@Upgrade_installs_verified_bytes ascii_strings short_lines toy_digest
           linux_amd64 example_releases example_archives number_versions
           "apoxy-dev" "app" "/usr/local/bin/app" "1" world0 H1 H2 H3).
Defined.

Lemma manifest_last_line_wins_witness :
  @bufio_ScanLines short_lines example_manifest_twice
  = [example_line_old] ++ example_line_new :: []
  /\ forallb (@twoFields ascii_strings) ([example_line_old] ++ example_line_new :: [])
     = true
  /\ @lineFields ascii_strings example_line_new = ["ABC123"; "app_linux_amd64.tar.gz"]
  /\ @keyNotIn ascii_strings
       (@checksum.manifestKey ascii_strings "app_linux_amd64.tar.gz") [] = true
  /\ exists info,
       @checksum.parseManifest ascii_strings short_lines example_manifest_twice = Ok info
       /\ checksum.Checksums info !! @checksum.manifestKey ascii_strings "app_linux_amd64.tar.gz"
          = Some (@strings_ToLower ascii_strings "ABC123")
       /\ forall v binary digest,
            validatorKey v binary
            = @checksum.manifestKey ascii_strings "app_linux_amd64.tar.gz" ->
            checksum.IsCheckSumValid v binary info digest
            = String.eqb (@strings_ToLower ascii_strings "ABC123") digest.
Proof.
  assert (H1 : @bufio_ScanLines short_lines example_manifest_twice
               = [example_line_old] ++ example_line_new :: []) by reflexivity.
  assert (H2 : forallb (@twoFields ascii_strings)
                 ([example_line_old] ++ example_line_new :: []) = true) by reflexivity.
  assert (H3 : @lineFields ascii_strings example_line_new
               = ["ABC123"; "app_linux_amd64.tar.gz"]) by reflexivity.
  assert (H4 : @keyNotIn ascii_strings
                 (@checksum.manifestKey ascii_strings "app_linux_amd64.tar.gz") [] = true)
    by reflexivity.
  split; [exact H1 | split; [exact H2 | split; [exact H3 | split; [exact H4 |]]]].
  exact (@manifest_last_line_wins ascii_strings short_lines example_manifest_twice
           [example_line_old] [] example_line_new "ABC123" "app_linux_amd64.tar.gz"
           H1 H2 H3 H4).
Defined.

Lemma Upgrade_agrees_with_IsNewVersionAvailable_witness :
  @upgrade.IsNewVersionAvailable number_versions example_upgrader "2" world0
  = (Ok false, world0)
  /\ @upgrade.Upgrade example_archives number_versions example_upgrader "2" world0
     = (None, world0).
Proof.
  assert (Hq : @upgrade.IsNewVersionAvailable number_versions example_upgrader "2" world0
               = (Ok false, world0)) by reflexivity.
  split; [exact Hq |].
  exact (@Upgrade_agrees_with_IsNewVersionAvailable example_archives number_versions
           example_upgrader "2" world0 world0 (Ok false) Hq).
Defined.

Lemma DownloadAsset_info_describes_asset_witness :
  @asset.DownloadAsset ascii_strings toy_digest example_downloader example_assets world0
  = (Ok (example_matched_info, Some example_cleanup), world_downloaded)
  /\ exists a stem,
       In a example_assets
       /\ @strings_ToLower ascii_strings (BrowserDownloadURL a)
          = stem +:+ "linux_amd64" +:+ ".tar.gz"
       /\ asset.PlatformSuffix example_matched_info = "linux" +:+ "_" +:+ "amd64"
       /\ In (asset.ArSuffix example_matched_info) ("" :: archiveSuffixes)
       /\ Some example_cleanup = Some (os_Remove "/tmp/app7").
Proof.
  assert (Hd : @asset.DownloadAsset ascii_strings toy_digest example_downloader
                 example_assets world0
               = (Ok (example_matched_info, Some example_cleanup), world_downloaded))
    by (vm_compute; reflexivity).
  split; [exact Hd |].
  exact (@DownloadAsset_info_describes_asset ascii_strings toy_digest example_downloader
           example_assets world0 world_downloaded example_matched_info
           (Some example_cleanup) Hd).
Defined.

Lemma Upgrade_nil_means_verified_witness :
  (@upgrade.Upgrade example_archives number_versions example_upgrader "1" world0).1 = None
  /\ exists curr rel w1 latest,
       @NewVersion number_versions "1" = Ok curr
       /\ upgrade.releaseGetter example_upgrader world0 = (Ok rel, w1)
       /\ @NewVersion number_versions (TagName rel) = Ok latest
       /\ (((@Compare number_versions latest curr <= 0)%Z
            /\ (@upgrade.Upgrade example_archives number_versions example_upgrader "1"
                  world0).2 = w1)
           \/ ((0 < @Compare number_versions latest curr)%Z
               /\ exists info cleanup w2 sums w3 w4,
                    let tmp := asset.DownloadedBinaryFilePath info in
                    upgrade.assetDownloader example_upgrader (Assets rel) w1
                    = (Ok (info, cleanup), w2)
                    /\ upgrade.checksumDownloader example_upgrader (Assets rel) w2
                       = (Ok sums, w3)
                    /\ upgrade.checksumValidator example_upgrader
                         (filepath.Base (upgrade.executablePath example_upgrader))
                         sums (asset.Checksum info) w3 = (true, w4)
                    /\ filepath.Ext tmp = ""
                    /\ is_Some (files w4 !! tmp)
                    /\ (os_Rename tmp (upgrade.executablePath example_upgrader)
                          (log (EvOpen tmp) w4)).1 = None)).
Proof.
  assert (Hn : (@upgrade.Upgrade example_archives number_versions example_upgrader "1"
                  world0).1 = None) by (vm_compute; reflexivity).
  split; [exact Hn |].
  exact (@Upgrade_nil_means_verified example_archives number_versions example_upgrader
           "1" world0 Hn).
Defined.

